(** * Semantometrics: the contribution core

    A shallow embedding of [contribution/dist_calculator.py] and
    [contribution/contrib_calculator.py].

    Conventions of the embedding.
    - Python values that flow through the numeric code are [VNone] or a
      number.  Floats are idealised as exact rationals ([Qc]); the int
      literals [0] and [1] of the source are the same rationals.
    - Ordering comparisons follow Python 3: comparing [None] with a number
      raises [TypeError].
    - The calculator object is the record [calc]: its mutable dictionary
      [calculated_distances] plus a ghost [trace] of the text look-ups and
      engine invocations performed so far.
    - nltk and scikit-learn are not part of the repository: the fitted
      vectorizer is a parameter [fit_transform] of the development. *)

From Stdlib Require Import QArith Qcanon.
From stdpp Require Import base option list strings gmap numbers.

Local Open Scope Qc_scope.

(** ** Python values, exceptions, results *)

Inductive value : Type :=
  | VNone
  | VNum (q : Qc).

Inductive exn : Type :=
  | TypeError
  | ZeroDivisionError.

Inductive result (A : Type) : Type :=
  | Ok (a : A)
  | Raise (e : exn).
Arguments Ok {A} a.
Arguments Raise {A} e.

Definition is_num (v : value) : bool :=
  match v with VNum _ => true | VNone => false end.

(** Boolean comparisons on the idealised floats. *)
Definition Qc_leb (x y : Qc) : bool := Qle_bool x y.
Definition Qc_ltb (x y : Qc) : bool := negb (Qle_bool y x).

Module Py.

Definition add (x y : value) : result value :=
  match x, y with
  | VNum a, VNum b => Ok (VNum (a + b))
  | _, _ => Raise TypeError
  end.

Definition mul (x y : value) : result value :=
  match x, y with
  | VNum a, VNum b => Ok (VNum (a * b))
  | _, _ => Raise TypeError
  end.

(** [x / y], true division. *)
Definition truediv (x y : value) : result value :=
  match x, y with
  | VNum a, VNum b =>
      if Qc_eq_bool b 0 then Raise ZeroDivisionError else Ok (VNum (a / b))
  | _, _ => Raise TypeError
  end.

(** [x < y], [x <= y], [x > y]: unorderable against [None]. *)
Definition lt (x y : value) : result bool :=
  match x, y with
  | VNum a, VNum b => Ok (Qc_ltb a b)
  | _, _ => Raise TypeError
  end.

Definition le (x y : value) : result bool :=
  match x, y with
  | VNum a, VNum b => Ok (Qc_leb a b)
  | _, _ => Raise TypeError
  end.

Definition gt (x y : value) : result bool := lt y x.

(** [sum(l)]: left fold of [+] starting from the int [0]. *)
Fixpoint sum_from (acc : value) (l : list value) : result value :=
  match l with
  | [] => Ok acc
  | v :: l' =>
      match add acc v with
      | Ok acc' => sum_from acc' l'
      | Raise e => Raise e
      end
  end.

Definition sum (l : list value) : result value := sum_from (VNum 0) l.

(** [len(l)] as a Python number. *)
Definition len {A} (l : list A) : value :=
  VNum (Q2Qc (inject_Z (Z.of_nat (length l)))).

(** Truthiness of a [str]: only the empty string is falsy. *)
Definition str_truthy (s : string) : bool :=
  match s with
  | EmptyString => false
  | String _ _ => true
  end.

End Py.

(** ** dist_calculator.py *)

(** Row [i] of the tf-idf matrix times row [j], i.e. entry [[i][j]] of
    [tfidf * tfidf.T]. *)
Fixpoint row_dot (u v : list Qc) : Qc :=
  match u, v with
  | x :: u', y :: v' => x * y + row_dot u' v'
  | _, _ => 0
  end.

Section DistCalculator.

(** [vectorizer.fit_transform([d1, d2])]: [None] stands for the
    [ValueError] of an empty vocabulary, [Some (r0, r1)] for the two rows
    of the fitted 2-row tf-idf matrix. *)
Variable fit_transform : string → string → option (list Qc * list Qc).

Definition document_distance (d1 d2 : string) : value :=
  if negb (Py.str_truthy d1) || negb (Py.str_truthy d2) then VNone
  else
    match fit_transform d1 d2 with
    | None => VNone
    | Some (row0, row1) =>
        let pairwise_similarity_0_1 := row_dot row0 row1 in
        let distance := 1 - pairwise_similarity_0_1 in
        if Qc_ltb distance 0 || Qc_ltb 1 distance then VNone
        else VNum distance
    end.

End DistCalculator.

(** ** contrib_calculator.py *)

(** What a slot of the [docs] dictionary may hold. *)
Inductive doc_entry : Type :=
  | DocNone
  | DocNaN
  | DocText (s : string).

(** Ghost events: a text looked up in [docs], an engine invocation. *)
Inductive event : Type :=
  | EvGetText (idx : string)
  | EvDistance (d1 d2 : string).

Record calc : Type := Calc {
  calculated_distances : gmap string (gmap string value);
  trace : list event
}.

(** State and exceptions: the state survives a raise, as the object does. *)
Definition M (A : Type) : Type := calc → result A * calc.

Definition ret {A} (a : A) : M A := λ s, (Ok a, s).

Definition bind {A B} (m : M A) (k : A → M B) : M B :=
  λ s, match m s with
       | (Ok a, s') => k a s'
       | (Raise e, s') => (Raise e, s')
       end.

Definition lift {A} (r : result A) : M A := λ s, (r, s).

Definition get_distances : M (gmap string (gmap string value)) :=
  λ s, (Ok (calculated_distances s), s).

Definition set_distances (d : gmap string (gmap string value)) : M unit :=
  λ s, (Ok tt, Calc d (trace s)).

Definition emit (e : event) : M unit :=
  λ s, (Ok tt, Calc (calculated_distances s) (e :: trace s)).

Notation "x <- m ;; k" := (bind m (λ x, k))
  (at level 100, m at next level, right associativity).
Notation "m ;;; k" := (bind m (λ _, k))
  (at level 100, right associativity).

(** [a in d and b in d[a]], then [d[a][b]]. *)
Definition cache_lookup (d : gmap string (gmap string value))
    (a b : string) : option value :=
  match d !! a with
  | Some inner => inner !! b
  | None => None
  end.

Definition get_calculated_distances : M (gmap string (gmap string value)) :=
  get_distances.

Definition _get_document_text (doc_map : gmap string doc_entry)
    (idx : string) : string :=
  match doc_map !! idx with
  | None => EmptyString
  | Some DocNaN => EmptyString
  | Some DocNone => EmptyString
  | Some (DocText doc_text) => doc_text
  end.

(** [d[k][k'] = v] for a key [k] known to be present; on an absent [k]
    Python raises [KeyError], which [add_distance] below never reaches
    since it inserts the outer keys first. *)
Definition set_item2 (k k' : string) (v : value)
    (d : gmap string (gmap string value)) : gmap string (gmap string value) :=
  match d !! k with
  | Some inner => <[k := <[k' := v]> inner]> d
  | None => d
  end.

Definition ensure_key (k : string)
    (d : gmap string (gmap string value)) : gmap string (gmap string value) :=
  match d !! k with
  | Some _ => d
  | None => <[k := ∅]> d
  end.

(** The dictionary update performed by [_add_distance]. *)
Definition add_distance (idx1 idx2 : string) (distance : value)
    (d : gmap string (gmap string value)) : gmap string (gmap string value) :=
  set_item2 idx2 idx1 distance
    (set_item2 idx1 idx2 distance (ensure_key idx2 (ensure_key idx1 d))).

Definition _add_distance (idx1 idx2 : string) (distance : value) : M unit :=
  d <- get_distances ;; set_distances (add_distance idx1 idx2 distance d).

(** [[[x, y] for x in indices_a for y in indices_b]] *)
Definition pairs (indices_a indices_b : list string) : list (string * string) :=
  flat_map (λ x, map (λ y, (x, y)) indices_b) indices_a.

Section ContribCalculator.

Variable fit_transform : string → string → option (list Qc * list Qc).

(** Body of the loop of [_pairwise_distances]; [distances] is the list
    accumulated so far. *)
Definition pair_step (idx_text_map : gmap string doc_entry)
    (distances : list value) (pair : string * string) : M (list value) :=
  if bool_decide (pair.1 = pair.2) then ret distances
  else
    d <- get_distances ;;
    match cache_lookup d pair.1 pair.2 with
    | Some dist => ret (distances ++ [dist])
    | None =>
        emit (EvGetText pair.1) ;;;
        let d1 := _get_document_text idx_text_map pair.1 in
        emit (EvGetText pair.2) ;;;
        let d2 := _get_document_text idx_text_map pair.2 in
        emit (EvDistance d1 d2) ;;;
        let dist := document_distance fit_transform d1 d2 in
        if is_num dist then
          _add_distance pair.1 pair.2 dist ;;;
          ret (distances ++ [dist])
        else ret distances
    end.

Fixpoint for_pairs (idx_text_map : gmap string doc_entry)
    (distances : list value) (ps : list (string * string)) : M (list value) :=
  match ps with
  | [] => ret distances
  | p :: ps' =>
      distances' <- pair_step idx_text_map distances p ;;
      for_pairs idx_text_map distances' ps'
  end.

Definition _pairwise_distances (indices_a indices_b : list string)
    (idx_text_map : gmap string doc_entry) : M (list value) :=
  for_pairs idx_text_map [] (pairs indices_a indices_b).

Definition _mean_distance (indices_a indices_b : list string)
    (docs : gmap string doc_entry) : M value :=
  distances <- _pairwise_distances indices_a indices_b docs ;;
  if Nat.eqb (length distances) 0 then ret VNone
  else
    total <- lift (Py.sum distances) ;;
    lift (Py.truediv total (Py.len distances)).

(** [e1 or e2] on comparisons: [e2] is evaluated only if [e1] is false. *)
Definition or_else (e1 e2 : result bool) : result bool :=
  match e1 with
  | Ok true => Ok true
  | Ok false => e2
  | Raise e => Raise e
  end.

Definition contribution (indices_a indices_b : list string)
    (docs : gmap string doc_entry) : M value :=
  if Nat.eqb (length indices_a) 0 || Nat.eqb (length indices_b) 0
  then ret VNone
  else
    overlines <-
      (if Nat.eqb (length indices_a) 1 || Nat.eqb (length indices_b) 1
       then ret (VNum 1, VNum 1)
       else
         overline_a <- _mean_distance indices_a indices_a docs ;;
         overline_b <- _mean_distance indices_b indices_b docs ;;
         ret (overline_a, overline_b)) ;;
    let overline_a := overlines.1 in
    let overline_b := overlines.2 in
    invalid <- lift (or_else (Py.le overline_a (VNum 0))
                    (or_else (Py.gt overline_a (VNum 1))
                    (or_else (Py.le overline_b (VNum 0))
                             (Py.gt overline_b (VNum 1))))) ;;
    if (invalid : bool) then ret VNone
    else
      mean_distance <- _mean_distance indices_a indices_b docs ;;
      out_of_range <- lift (or_else (Py.lt mean_distance (VNum 0))
                                    (Py.gt mean_distance (VNum 1))) ;;
      if (out_of_range : bool) then ret VNone
      else
        adjust <- lift (Py.truediv overline_b overline_a) ;;
        lift (Py.mul adjust mean_distance).

End ContribCalculator.

(** ** A stub engine and small fixtures

    A deterministic stand-in for the fitted vectorizer over a two-term
    vocabulary, in the spirit of a test double: unknown texts vectorise to
    the zero row, and a pair of zero rows is the empty-vocabulary error. *)

Definition stub_row (d : string) : list Qc :=
  if String.eqb d "cat" then [1; 0]
  else if String.eqb d "dog" then [0; 1]
  else if String.eqb d "pet" then [Q2Qc (3 # 5); Q2Qc (4 # 5)]
  else [0; 0].

Definition zero_row (r : list Qc) : bool := forallb (Qc_eq_bool 0) r.

Definition stub_fit_transform (d1 d2 : string) : option (list Qc * list Qc) :=
  if zero_row (stub_row d1) && zero_row (stub_row d2) then None
  else Some (stub_row d1, stub_row d2).

(** [ContribCalculator()] *)
Definition new_calc : calc := Calc ∅ [].

Definition docs_pets : gmap string doc_entry :=
  <["1" := DocText "cat"]> (<["2" := DocText "cat"]> (<["3" := DocText "dog"]> ∅)).

(** A [docs] map with a text for document 1 only. *)
Definition docs_partial : gmap string doc_entry := <["1" := DocText "cat"]> ∅.

(** ** Vocabulary of the statements

    Ghost notions used to state the properties: the outcome of one loop
    iteration, relations between the calculator before and after a call,
    the cache invariants, and the per-pair view of the loop. *)

(** The three events of a cache miss, newest first. *)
Definition miss_events (docs : gmap string doc_entry) (a b : string)
    : list event :=
  [ EvDistance (_get_document_text docs a) (_get_document_text docs b);
    EvGetText b; EvGetText a ].

(** The four ways one iteration can go. *)
Inductive step_outcome
    (fit_transform : string → string → option (list Qc * list Qc))
    (docs : gmap string doc_entry)
    (acc : list value) (p : string * string) (s : calc)
    : result (list value) * calc → Prop :=
  | step_self :
      p.1 = p.2 → step_outcome fit_transform docs acc p s (Ok acc, s)
  | step_hit dist :
      p.1 ≠ p.2 →
      cache_lookup (calculated_distances s) p.1 p.2 = Some dist →
      step_outcome fit_transform docs acc p s (Ok (acc ++ [dist]), s)
  | step_miss_none :
      p.1 ≠ p.2 →
      cache_lookup (calculated_distances s) p.1 p.2 = None →
      document_distance fit_transform
        (_get_document_text docs p.1) (_get_document_text docs p.2) = VNone →
      step_outcome fit_transform docs acc p s
        (Ok acc, Calc (calculated_distances s) (miss_events docs p.1 p.2 ++ trace s))
  | step_miss_num q :
      p.1 ≠ p.2 →
      cache_lookup (calculated_distances s) p.1 p.2 = None →
      document_distance fit_transform
        (_get_document_text docs p.1) (_get_document_text docs p.2) = VNum q →
      step_outcome fit_transform docs acc p s
        (Ok (acc ++ [VNum q]),
         Calc (add_distance p.1 p.2 (VNum q) (calculated_distances s))
              (miss_events docs p.1 p.2 ++ trace s)).

Definition preserves {A} (R : calc → calc → Prop) (m : M A) : Prop :=
  ∀ s, R s (snd (m s)).

Definition cache_symmetric (d : gmap string (gmap string value)) : Prop :=
  ∀ a b, cache_lookup d a b = cache_lookup d b a.

Definition no_self_pair (d : gmap string (gmap string value)) : Prop :=
  ∀ a, cache_lookup d a a = None.

Definition cache_inv (d : gmap string (gmap string value)) : Prop :=
  cache_symmetric d ∧ no_self_pair d.

Definition in_unit_interval (v : value) : Prop :=
  ∃ q, v = VNum q ∧ 0 ≤ q ≤ 1.

(** Every entry of [d'] is an entry of [d] or a number within [0, 1]. *)
Definition written_in_range (d d' : gmap string (gmap string value)) : Prop :=
  ∀ a b v, cache_lookup d' a b = Some v →
           cache_lookup d a b = Some v ∨ in_unit_interval v.

Definition no_unavailable (d : gmap string (gmap string value)) : Prop :=
  ∀ a b, cache_lookup d a b ≠ Some VNone.

Definition keeps_inv (s s' : calc) : Prop :=
  cache_inv (calculated_distances s) → cache_inv (calculated_distances s').

Definition writes_in_range (s s' : calc) : Prop :=
  written_in_range (calculated_distances s) (calculated_distances s').

Definition keeps_entries (s s' : calc) : Prop :=
  ∀ a b, is_Some (cache_lookup (calculated_distances s) a b) →
         is_Some (cache_lookup (calculated_distances s') a b).

(** The arithmetic of [_mean_distance] on the list it collected. *)
Definition arith_mean (distances : list value) : result value :=
  if Nat.eqb (length distances) 0 then Ok VNone
  else
    match Py.sum distances with
    | Ok total => Py.truediv total (Py.len distances)
    | Raise e => Raise e
    end.

(** The calculator after [contribution ["1"] ["3"]] on the pets fixture. *)
Definition calc_after_1_3 : calc :=
  snd (contribution stub_fit_transform ["1"] ["3"] docs_pets new_calc).

(** Number of occurrences of [x] in [l]. *)
Definition occurrences {K} `{EqDecision K} (x : K) (l : list K) : nat :=
  length (filter (λ y, y = x) l).

(** The iterations of the loop of [_pairwise_distances] from state [s]:
    each pair together with the entries its iteration appends. *)
Fixpoint iterations
    (fit_transform : string → string → option (list Qc * list Qc))
    (docs : gmap string doc_entry) (ps : list (string * string)) (s : calc)
    : list ((string * string) * list value) :=
  match ps with
  | [] => []
  | p :: ps' =>
      let r := pair_step fit_transform docs [] p s in
      (p, match r.1 with Ok l => l | Raise _ => [] end)
        :: iterations fit_transform docs ps' r.2
  end.

(** The entries appended by the iterations on pair [p]. *)
Definition entries_of (p : string * string)
    (its : list ((string * string) * list value)) : list value :=
  concat (map snd (filter (λ it, it.1 = p) its)).

(** The distance of [(a, b)] can be resolved: it is cached, or the engine
    produces a number for the two texts. *)
Definition resolvable
    (fit_transform : string → string → option (list Qc * list Qc))
    (docs : gmap string doc_entry) (d : gmap string (gmap string value))
    (a b : string) : Prop :=
  is_Some (cache_lookup d a b)
  ∨ is_num (document_distance fit_transform
              (_get_document_text docs a) (_get_document_text docs b)) = true.

(** ** The constructor, and run.py

    [ContribCalculator(distances)] starts from the given dictionary, or
    from an empty one when [distances] is [None].  The script [run.py]
    reads the citation rows, splits them into the documents cited by and
    citing the target document, and asks a fresh calculator for the
    contribution.  Python's [int] is a builtin: it is the parameter
    [py_int], with [None] for its [ValueError]. *)

Definition ContribCalculator_init
    (distances : option (gmap string (gmap string value))) : calc :=
  Calc (match distances with Some d => d | None => ∅ end) [].

Inductive run_exn : Type :=
  | IndexError
  | ValueError.

Inductive run_result (A : Type) : Type :=
  | RunOk (a : A)
  | RunRaise (e : run_exn).
Arguments RunOk {A} a.
Arguments RunRaise {A} e.

(** [doc_id = 27] *)
Definition doc_id : Z := 27%Z.

(** [row[i]] *)
Definition getitem (row : list string) (i : nat) : run_result string :=
  match row !! i with
  | Some field => RunOk field
  | None => RunRaise IndexError
  end.

Section Run.

Variable py_int : string → option Z.

Definition int_of (field : string) : run_result Z :=
  match py_int field with
  | Some n => RunOk n
  | None => RunRaise ValueError
  end.

(** The loop over the rows of the citation file. *)
Fixpoint read_citations (rows : list (list string))
    (indices_cited indices_citing : list string)
    : run_result (list string * list string) :=
  match rows with
  | [] => RunOk (indices_cited, indices_citing)
  | row :: rows' =>
      match getitem row 0 with
      | RunRaise e => RunRaise e
      | RunOk row0 =>
          match int_of row0 with
          | RunRaise e => RunRaise e
          | RunOk n0 =>
              if (n0 =? doc_id)%Z then
                match getitem row 1 with
                | RunRaise e => RunRaise e
                | RunOk row1 =>
                    read_citations rows' (indices_cited ++ [row1])
                      indices_citing
                end
              else
                match getitem row 1 with
                | RunRaise e => RunRaise e
                | RunOk row1 =>
                    match int_of row1 with
                    | RunRaise e => RunRaise e
                    | RunOk n1 =>
                        if (n1 =? doc_id)%Z then
                          read_citations rows' indices_cited
                            (indices_citing ++ [row0])
                        else read_citations rows' indices_cited indices_citing
                    end
                end
          end
      end
  end.

Variable fit_transform : string → string → option (list Qc * list Qc).

(** The script body after the files are read: [rows] is what the csv
    reader yields, [documents] the loaded texts. *)
Definition main (rows : list (list string))
    (documents : gmap string doc_entry) : run_result (result value * calc) :=
  match read_citations rows [] [] with
  | RunRaise e => RunRaise e
  | RunOk (indices_cited, indices_citing) =>
      RunOk (contribution fit_transform indices_cited indices_citing
               documents new_calc)
  end.

(** What a row adds to [indices_cited], resp. to [indices_citing]. *)
Definition cited_entry (row : list string) : option string :=
  match row with
  | row0 :: row1 :: _ =>
      match py_int row0 with
      | Some n0 => if (n0 =? doc_id)%Z then Some row1 else None
      | None => None
      end
  | _ => None
  end.

Definition citing_entry (row : list string) : option string :=
  match row with
  | row0 :: row1 :: _ =>
      match py_int row0, py_int row1 with
      | Some n0, Some n1 =>
          if (n0 =? doc_id)%Z then None
          else if (n1 =? doc_id)%Z then Some row0 else None
      | _, _ => None
      end
  | _ => None
  end.

(** A row with at least two fields, both of which [int] accepts. *)
Definition row_ok (row : list string) : Prop :=
  ∃ row0 row1 rest n0 n1,
    row = row0 :: row1 :: rest ∧ py_int row0 = Some n0 ∧ py_int row1 = Some n1.

End Run.

(** ** Further vocabulary and fixtures *)

(** A stand-in for [int] on plain decimal numerals. *)
Definition digit_of (c : Ascii.ascii) : option Z :=
  let n := (Z.of_N (Ascii.N_of_ascii c) - 48)%Z in
  if ((0 <=? n) && (n <=? 9))%Z then Some n else None.

Fixpoint decimal_from (acc : Z) (s : string) : option Z :=
  match s with
  | EmptyString => Some acc
  | String c s' =>
      match digit_of c with
      | Some d => decimal_from (10 * acc + d)%Z s'
      | None => None
      end
  end.

Definition decimal_int (s : string) : option Z :=
  match s with
  | EmptyString => None
  | String _ _ => decimal_from 0 s
  end.

Definition rows_27 : list (list string) :=
  [ ["27"; "1"]; ["3"; "27"]; ["27"; "27"]; ["5"; "6"]; ["2"; "27"] ].

Definition docs_zoo : gmap string doc_entry :=
  <["1" := DocText "cat"]> (<["2" := DocText "dog"]>
    (<["3" := DocText "pet"]> (<["4" := DocText "cat"]> ∅))).

(** The document [idx] has no usable text in [docs]. *)
Definition lacks_text (docs : gmap string doc_entry) (idx : string) : Prop :=
  docs !! idx = None ∨ docs !! idx = Some DocNone
  ∨ docs !! idx = Some DocNaN ∨ docs !! idx = Some (DocText EmptyString).

(** Every cached value is a number within [0, 1]. *)
Definition cache_in_range (d : gmap string (gmap string value)) : Prop :=
  ∀ a b v, cache_lookup d a b = Some v → in_unit_interval v.

(** Entries present before are present, unchanged, after. *)
Definition keeps_values (s s' : calc) : Prop :=
  cache_symmetric (calculated_distances s) →
  cache_symmetric (calculated_distances s')
  ∧ ∀ a b v, cache_lookup (calculated_distances s) a b = Some v →
             cache_lookup (calculated_distances s') a b = Some v.

(** The part of [contribution] that follows the adjustment parameters. *)
Definition contribution_tail
    (fit_transform : string → string → option (list Qc * list Qc))
    (indices_a indices_b : list string) (docs : gmap string doc_entry)
    (overlines : value * value) : M value :=
  let overline_a := overlines.1 in
  let overline_b := overlines.2 in
  invalid <- lift (or_else (Py.le overline_a (VNum 0))
                  (or_else (Py.gt overline_a (VNum 1))
                  (or_else (Py.le overline_b (VNum 0))
                           (Py.gt overline_b (VNum 1))))) ;;
  if (invalid : bool) then ret VNone
  else
    mean_distance <- _mean_distance fit_transform indices_a indices_b docs ;;
    out_of_range <- lift (or_else (Py.lt mean_distance (VNum 0))
                                  (Py.gt mean_distance (VNum 1))) ;;
    if (out_of_range : bool) then ret VNone
    else
      adjust <- lift (Py.truediv overline_b overline_a) ;;
      lift (Py.mul adjust mean_distance).

(** What [contribution] can end with: the undefined result, a number that
    is not negative, or a [TypeError]. *)
Definition well_shaped (r : result value) : Prop :=
  match r with
  | Ok VNone => True
  | Ok (VNum v) => 0 ≤ v
  | Raise e => e = TypeError
  end.

(** ** Arithmetic and monad facts *)

Lemma Qc_ltb_false (x y : Qc) : Qc_ltb x y = false → y ≤ x.
Proof.
  unfold Qc_ltb. intros H. apply negb_false_iff in H.
  apply Qle_bool_iff in H. exact H.
Qed.

Lemma Qc_ltb_true (x y : Qc) : Qc_ltb x y = true → x < y.
Proof.
  unfold Qc_ltb. intros H. apply negb_true_iff in H.
  apply Qcnot_le_lt. intros Hle. apply Qle_bool_iff in Hle. congruence.
Qed.

Lemma Qc_ltb_iff (x y : Qc) : Qc_ltb x y = true ↔ x < y.
Proof.
  split; [apply Qc_ltb_true|].
  intros Hlt. destruct (Qc_ltb x y) eqn:E; [done|].
  apply Qc_ltb_false in E. by apply Qcle_not_lt in E.
Qed.

Lemma Qc_leb_iff (x y : Qc) : Qc_leb x y = true ↔ x ≤ y.
Proof. unfold Qc_leb. apply Qle_bool_iff. Qed.

Lemma row_dot_comm (u v : list Qc) : row_dot u v = row_dot v u.
Proof.
  revert v. induction u as [|x u IH]; intros [|y v]; simpl; try reflexivity.
  by rewrite IH, (Qcmult_comm x y).
Qed.

Lemma bind_ok {A B} (m : M A) (k : A → M B) s a s' :
  m s = (Ok a, s') → bind m k s = k a s'.
Proof. unfold bind. by intros ->. Qed.

Lemma bind_raise {A B} (m : M A) (k : A → M B) s e s' :
  m s = (Raise e, s') → bind m k s = (Raise e, s').
Proof. unfold bind. by intros ->. Qed.

(** ** The distance engine *)

Lemma document_distance_bounds
    (fit_transform : string → string → option (list Qc * list Qc))
    (d1 d2 : string) (q : Qc) :
  document_distance fit_transform d1 d2 = VNum q → 0 ≤ q ≤ 1.
Proof.
  unfold document_distance. intros H.
  destruct (negb (Py.str_truthy d1) || negb (Py.str_truthy d2)); [done|].
  destruct (fit_transform d1 d2) as [[row0 row1]|]; [|done].
  destruct (Qc_ltb (1 - row_dot row0 row1) 0) eqn:Hlo; [done|].
  destruct (Qc_ltb 1 (1 - row_dot row0 row1)) eqn:Hhi; [done|].
  cbn [orb] in H. injection H as <-.
  split; by apply Qc_ltb_false.
Qed.

(** C4: whenever [document_distance] produces a distance (a number rather
    than [None]), the distance lies in the closed interval from 0 to 1. *)
Theorem document_distance_range
    (fit_transform : string → string → option (list Qc * list Qc))
    (d1 d2 : string) (q : Qc) :
  document_distance fit_transform d1 d2 = VNum q → 0 ≤ q ≤ 1.
Proof. apply document_distance_bounds. Qed.

Lemma document_distance_range_witness :
  document_distance stub_fit_transform "cat" "pet" = VNum (Q2Qc (2 # 5))
  ∧ 0 ≤ Q2Qc (2 # 5) ≤ 1.
Proof.
  split; [vm_compute; reflexivity|].
  apply (document_distance_range stub_fit_transform "cat" "pet").
  vm_compute; reflexivity.
Defined.

(** C5: [document_distance] is symmetric in its two texts, also in whether
    the result is unavailable.  The vectorizer is library code; what is
    used of it is that fitting the two texts in the other order yields the
    same two rows in the other order (and the same empty-vocabulary
    error). *)
Theorem document_distance_symmetric
    (fit_transform : string → string → option (list Qc * list Qc))
    (Hswap : ∀ d1 d2, fit_transform d2 d1 = prod_swap <$> fit_transform d1 d2)
    (d1 d2 : string) :
  document_distance fit_transform d1 d2 = document_distance fit_transform d2 d1.
Proof.
  unfold document_distance. rewrite (Hswap d1 d2).
  rewrite (orb_comm (negb (Py.str_truthy d2))).
  destruct (negb (Py.str_truthy d1) || negb (Py.str_truthy d2)); [done|].
  destruct (fit_transform d1 d2) as [[row0 row1]|]; simpl; [|done].
  by rewrite (row_dot_comm row1 row0).
Qed.

Lemma stub_fit_transform_swap (d1 d2 : string) :
  stub_fit_transform d2 d1 = prod_swap <$> stub_fit_transform d1 d2.
Proof.
  unfold stub_fit_transform.
  rewrite (andb_comm (zero_row (stub_row d2))).
  by destruct (zero_row (stub_row d1) && zero_row (stub_row d2)).
Qed.

Lemma document_distance_symmetric_witness :
  document_distance stub_fit_transform "cat" "pet"
  = document_distance stub_fit_transform "pet" "cat".
Proof.
  apply (document_distance_symmetric stub_fit_transform stub_fit_transform_swap).
Defined.

(** ** The distance cache *)

Lemma lookup_ensure_key (k a : string) (d : gmap string (gmap string value)) :
  ensure_key k d !! a
  = match d !! a with
    | Some inner => Some inner
    | None => if decide (k = a) then Some ∅ else None
    end.
Proof.
  unfold ensure_key. destruct (d !! k) eqn:Hk.
  - destruct (d !! a) eqn:Ha; [done|]. case_decide; congruence.
  - rewrite lookup_insert. case_decide; subst.
    + by rewrite Hk.
    + by destruct (d !! a).
Qed.

Lemma cache_lookup_ensure_key (k a b : string)
    (d : gmap string (gmap string value)) :
  cache_lookup (ensure_key k d) a b = cache_lookup d a b.
Proof.
  unfold cache_lookup. rewrite lookup_ensure_key.
  destruct (d !! a); [done|]. by case_decide.
Qed.

Lemma cache_lookup_set_item2 (k k' a b : string) (v : value)
    (d : gmap string (gmap string value)) :
  is_Some (d !! k) →
  cache_lookup (set_item2 k k' v d) a b
  = if decide (a = k ∧ b = k') then Some v else cache_lookup d a b.
Proof.
  intros [inner Hk]. unfold set_item2, cache_lookup. rewrite Hk.
  destruct (decide (a = k)) as [->|Hne].
  - rewrite lookup_insert_eq, Hk, lookup_insert.
    repeat case_decide; naive_solver.
  - rewrite lookup_insert_ne by done. case_decide; naive_solver.
Qed.

Lemma set_item2_is_Some (k k' a : string) (v : value)
    (d : gmap string (gmap string value)) :
  is_Some (d !! a) → is_Some (set_item2 k k' v d !! a).
Proof.
  intros Ha. unfold set_item2. destruct (d !! k) eqn:Hk; [|done].
  rewrite lookup_insert. case_decide; eauto.
Qed.

Lemma ensure_key_is_Some (k : string) (d : gmap string (gmap string value)) :
  is_Some (ensure_key k d !! k).
Proof.
  rewrite lookup_ensure_key. destruct (d !! k); [eauto|].
  rewrite decide_True by done. eauto.
Qed.

Lemma ensure_key_mono (k a : string) (d : gmap string (gmap string value)) :
  is_Some (d !! a) → is_Some (ensure_key k d !! a).
Proof. intros [inner Ha]. rewrite lookup_ensure_key, Ha. eauto. Qed.

(** What a look-up sees after [_add_distance idx1 idx2 distance]. *)
Lemma cache_lookup_add_distance (idx1 idx2 a b : string) (distance : value)
    (d : gmap string (gmap string value)) :
  cache_lookup (add_distance idx1 idx2 distance d) a b
  = if decide ((a = idx1 ∧ b = idx2) ∨ (a = idx2 ∧ b = idx1))
    then Some distance
    else cache_lookup d a b.
Proof.
  unfold add_distance.
  rewrite cache_lookup_set_item2.
  2: { apply set_item2_is_Some, ensure_key_is_Some. }
  rewrite cache_lookup_set_item2.
  2: { apply ensure_key_mono, ensure_key_is_Some. }
  rewrite !cache_lookup_ensure_key.
  repeat case_decide; naive_solver.
Qed.

(** ** The loop body of [_pairwise_distances] *)

Section PairStep.

Variable fit_transform : string → string → option (list Qc * list Qc).
Variable docs : gmap string doc_entry.

Lemma pair_step_self (x : string) (acc : list value) (s : calc) :
  pair_step fit_transform docs acc (x, x) s = (Ok acc, s).
Proof. unfold pair_step. simpl. by rewrite bool_decide_eq_true_2. Qed.

Lemma pair_step_hit (a b : string) (dist : value) (acc : list value)
    (s : calc) :
  a ≠ b →
  cache_lookup (calculated_distances s) a b = Some dist →
  pair_step fit_transform docs acc (a, b) s = (Ok (acc ++ [dist]), s).
Proof.
  intros Hne Hhit. unfold pair_step. simpl.
  rewrite bool_decide_eq_false_2 by done.
  unfold bind, get_distances. by rewrite Hhit.
Qed.

Lemma pair_step_miss_none (a b : string) (acc : list value) (s : calc) :
  a ≠ b →
  cache_lookup (calculated_distances s) a b = None →
  document_distance fit_transform
    (_get_document_text docs a) (_get_document_text docs b) = VNone →
  pair_step fit_transform docs acc (a, b) s
  = (Ok acc, Calc (calculated_distances s) (miss_events docs a b ++ trace s)).
Proof.
  intros Hne Hmiss Hdist. unfold pair_step. simpl.
  rewrite bool_decide_eq_false_2 by done.
  unfold bind, get_distances. rewrite Hmiss. simpl. by rewrite Hdist.
Qed.

Lemma pair_step_miss_num (a b : string) (q : Qc) (acc : list value)
    (s : calc) :
  a ≠ b →
  cache_lookup (calculated_distances s) a b = None →
  document_distance fit_transform
    (_get_document_text docs a) (_get_document_text docs b) = VNum q →
  pair_step fit_transform docs acc (a, b) s
  = (Ok (acc ++ [VNum q]),
     Calc (add_distance a b (VNum q) (calculated_distances s))
          (miss_events docs a b ++ trace s)).
Proof.
  intros Hne Hmiss Hdist. unfold pair_step. simpl.
  rewrite bool_decide_eq_false_2 by done.
  unfold bind, get_distances. rewrite Hmiss. simpl. by rewrite Hdist.
Qed.

Lemma pair_step_outcome (acc : list value) (p : string * string) (s : calc) :
  step_outcome fit_transform docs acc p s (pair_step fit_transform docs acc p s).
Proof.
  destruct p as [a b].
  destruct (decide (a = b)) as [->|Hne].
  { rewrite pair_step_self. by constructor. }
  destruct (cache_lookup (calculated_distances s) a b) as [dist|] eqn:Hc.
  { rewrite (pair_step_hit a b dist) by done. by constructor. }
  destruct (document_distance fit_transform
              (_get_document_text docs a) (_get_document_text docs b))
    as [|q] eqn:Hd.
  - rewrite pair_step_miss_none by done. by constructor.
  - rewrite (pair_step_miss_num a b q) by done. by constructor.
Qed.

(** One iteration never raises. *)
Lemma pair_step_ok (acc : list value) (p : string * string) (s : calc) :
  ∃ acc', fst (pair_step fit_transform docs acc p s) = Ok acc'.
Proof. destruct (pair_step_outcome acc p s); eauto. Qed.

Lemma for_pairs_ok (ps : list (string * string)) (acc : list value)
    (s : calc) :
  ∃ acc', fst (for_pairs fit_transform docs acc ps s) = Ok acc'.
Proof.
  revert acc s. induction ps as [|p ps IH]; intros acc s; simpl.
  - by eexists.
  - unfold bind. destruct (pair_step_outcome acc p s); apply IH.
Qed.

End PairStep.

(** ** Relations between the calculator before and after a call

    [preserves R m]: running [m] from any state [s] ends, normally or by an
    exception, in a state related to [s] by [R]. *)

Section Preservation.

Variable fit_transform : string → string → option (list Qc * list Qc).
Variable R : calc → calc → Prop.
Hypothesis R_refl : ∀ s, R s s.
Hypothesis R_trans : ∀ s1 s2 s3, R s1 s2 → R s2 s3 → R s1 s3.
Hypothesis R_step : ∀ docs acc p,
  preserves R (pair_step fit_transform docs acc p).

Lemma preserves_ret {A} (a : A) : preserves R (ret a).
Proof. intros s. apply R_refl. Qed.

Lemma preserves_lift {A} (r : result A) : preserves R (lift r).
Proof. intros s. apply R_refl. Qed.

Lemma preserves_bind {A B} (m : M A) (k : A → M B) :
  preserves R m → (∀ a, preserves R (k a)) → preserves R (bind m k).
Proof.
  intros Hm Hk s. unfold bind. specialize (Hm s).
  destruct (m s) as [[a|e] s']; simpl in *; [|done].
  eapply R_trans; [exact Hm|apply Hk].
Qed.

Lemma preserves_for_pairs docs ps acc :
  preserves R (for_pairs fit_transform docs acc ps).
Proof.
  revert acc. induction ps as [|p ps IH]; intros acc; simpl.
  - apply preserves_ret.
  - apply preserves_bind; [apply R_step|intros; apply IH].
Qed.

Lemma preserves_pairwise_distances indices_a indices_b docs :
  preserves R (_pairwise_distances fit_transform indices_a indices_b docs).
Proof. apply preserves_for_pairs. Qed.

Lemma preserves_mean_distance indices_a indices_b docs :
  preserves R (_mean_distance fit_transform indices_a indices_b docs).
Proof.
  apply preserves_bind; [apply preserves_pairwise_distances|].
  intros distances. destruct (length distances =? 0)%nat.
  - apply preserves_ret.
  - apply preserves_bind; intros; apply preserves_lift.
Qed.

Lemma preserves_contribution indices_a indices_b docs :
  preserves R (contribution fit_transform indices_a indices_b docs).
Proof.
  unfold contribution.
  destruct ((length indices_a =? 0)%nat || (length indices_b =? 0)%nat);
    [apply preserves_ret|].
  apply preserves_bind.
  { destruct ((length indices_a =? 1)%nat || (length indices_b =? 1)%nat);
      [apply preserves_ret|].
    apply preserves_bind; [apply preserves_mean_distance|intros].
    apply preserves_bind; [apply preserves_mean_distance|intros].
    apply preserves_ret. }
  intros overlines.
  apply preserves_bind; [apply preserves_lift|intros invalid].
  destruct invalid; [apply preserves_ret|].
  apply preserves_bind; [apply preserves_mean_distance|intros mean_distance].
  apply preserves_bind; [apply preserves_lift|intros out_of_range].
  destruct out_of_range; [apply preserves_ret|].
  apply preserves_bind; intros; apply preserves_lift.
Qed.

End Preservation.

(** ** Self-pairs and singleton groups *)

Lemma pairwise_distances_self
    (fit_transform : string → string → option (list Qc * list Qc))
    (x : string) (docs : gmap string doc_entry) (s : calc) :
  _pairwise_distances fit_transform [x] [x] docs s = (Ok [], s).
Proof.
  unfold _pairwise_distances. simpl. unfold bind.
  by rewrite pair_step_self.
Qed.

Lemma mean_distance_self
    (fit_transform : string → string → option (list Qc * list Qc))
    (x : string) (docs : gmap string doc_entry) (s : calc) :
  _mean_distance fit_transform [x] [x] docs s = (Ok VNone, s).
Proof. unfold _mean_distance, bind. by rewrite pairwise_distances_self. Qed.

(** C6: for every index [x] and every [docs] map, the pairwise distances of
    [[x]] against [[x]] are the empty list (the only candidate pair is a
    self-pair, which is skipped), so the mean distance of [[x]] against
    [[x]] is unavailable; the calculator is left as it was. *)
Theorem self_pair_excluded
    (fit_transform : string → string → option (list Qc * list Qc))
    (x : string) (docs : gmap string doc_entry) (s : calc) :
  _pairwise_distances fit_transform [x] [x] docs s = (Ok [], s)
  ∧ _mean_distance fit_transform [x] [x] docs s = (Ok VNone, s).
Proof. split; [apply pairwise_distances_self|apply mean_distance_self]. Qed.

Lemma Qc_one_neq_zero : Qc_eq_bool 1 0 = false.
Proof. reflexivity. Qed.

Lemma Qc_unit_scale (m : Qc) : 1 / 1 * m = m.
Proof. by rewrite Qcdiv_right_id, Qcmult_1_l. Qed.

(** [contribution [x] [y] docs] in terms of the inter-group mean. *)
Lemma contribution_singletons
    (fit_transform : string → string → option (list Qc * list Qc))
    (x y : string) (docs : gmap string doc_entry) (s : calc) :
  contribution fit_transform [x] [y] docs s
  = match _mean_distance fit_transform [x] [y] docs s with
    | (Ok VNone, s') => (Raise TypeError, s')
    | (Ok (VNum m), s') =>
        if Qc_ltb m 0 || Qc_ltb 1 m then (Ok VNone, s') else (Ok (VNum m), s')
    | (Raise e, s') => (Raise e, s')
    end.
Proof.
  unfold contribution. cbn [length Nat.eqb orb].
  unfold bind at 1. cbn [ret fst snd].
  unfold bind at 1.
  replace (lift (or_else (Py.le (VNum 1) (VNum 0))
             (or_else (Py.gt (VNum 1) (VNum 1))
                (or_else (Py.le (VNum 1) (VNum 0)) (Py.gt (VNum 1) (VNum 1))))) s)
    with (Ok false, s) by reflexivity.
  unfold bind at 1.
  destruct (_mean_distance fit_transform [x] [y] docs s) as [[[|m]|e] s'];
    [reflexivity| |reflexivity].
  unfold bind, lift, Py.lt, Py.gt, Py.lt, or_else. 
  destruct (Qc_ltb m 0); cbn [orb]; [reflexivity|].
  destruct (Qc_ltb 1 m); [reflexivity|].
  unfold Py.truediv, Py.mul. rewrite Qc_one_neq_zero.
  by rewrite Qc_unit_scale.
Qed.

(** Singleton groups whose inter-group mean is a number within [0, 1]:
    the contribution is exactly that mean. *)
Lemma contribution_singletons_mean
    (fit_transform : string → string → option (list Qc * list Qc))
    (x y : string) (docs : gmap string doc_entry) (s s' : calc) (m : Qc) :
  _mean_distance fit_transform [x] [y] docs s = (Ok (VNum m), s') →
  0 ≤ m ≤ 1 →
  contribution fit_transform [x] [y] docs s = (Ok (VNum m), s').
Proof.
  intros Hmean [Hlo Hhi]. rewrite contribution_singletons, Hmean.
  destruct (Qc_ltb m 0) eqn:E0.
  { apply Qc_ltb_true in E0. by apply Qcle_not_lt in Hlo. }
  destruct (Qc_ltb 1 m) eqn:E1; [|done].
  apply Qc_ltb_true in E1. by apply Qcle_not_lt in Hhi.
Qed.

(** C3: at singleton groups whose inter-group mean is unavailable the
    contribution is not that mean: the comparison of [None] against the
    bound [0] raises [TypeError].  This holds for [[x]] against [[x]] with
    any [docs], and for documents 1 and 2 when only document 1 has a
    text. *)
Theorem contribution_singletons_unavailable_raises
    (fit_transform : string → string → option (list Qc * list Qc))
    (x : string) (docs : gmap string doc_entry) (s : calc) :
  (_mean_distance fit_transform [x] [x] docs s = (Ok VNone, s)
   ∧ contribution fit_transform [x] [x] docs s = (Raise TypeError, s))
  ∧ (fst (_mean_distance fit_transform ["1"] ["2"] docs_partial new_calc)
       = Ok VNone
     ∧ fst (contribution fit_transform ["1"] ["2"] docs_partial new_calc)
       = Raise TypeError).
Proof.
  pose proof (mean_distance_self fit_transform x docs s) as Hmean.
  split; [split; [exact Hmean|]|split; reflexivity].
  by rewrite contribution_singletons, Hmean.
Qed.

(** ** Unavailable means inside [contribution] *)

(** The validity check of the adjustment parameters, when both are
    numbers. *)
Lemma adjustment_check_num (qa qb : Qc) :
  or_else (Py.le (VNum qa) (VNum 0))
    (or_else (Py.gt (VNum qa) (VNum 1))
       (or_else (Py.le (VNum qb) (VNum 0)) (Py.gt (VNum qb) (VNum 1))))
  = Ok (Qc_leb qa 0 || Qc_ltb 1 qa || Qc_leb qb 0 || Qc_ltb 1 qb).
Proof.
  unfold Py.gt, Py.le, Py.lt, or_else.
  by destruct (Qc_leb qa 0), (Qc_ltb 1 qa), (Qc_leb qb 0), (Qc_ltb 1 qb).
Qed.

(** Groups of two or more: an adjustment parameter that is a number outside
    (0, 1] makes the contribution undefined. *)
Lemma contribution_adjustment_out_of_range
    (fit_transform : string → string → option (list Qc * list Qc))
    (indices_a indices_b : list string) (docs : gmap string doc_entry)
    (s s1 s2 : calc) (qa qb : Qc) :
  (2 ≤ length indices_a)%nat → (2 ≤ length indices_b)%nat →
  _mean_distance fit_transform indices_a indices_a docs s = (Ok (VNum qa), s1) →
  _mean_distance fit_transform indices_b indices_b docs s1 = (Ok (VNum qb), s2) →
  ¬ (0 < qa ≤ 1) ∨ ¬ (0 < qb ≤ 1) →
  contribution fit_transform indices_a indices_b docs s = (Ok VNone, s2).
Proof.
  intros Ha Hb Hma Hmb Hbad. unfold contribution.
  destruct indices_a as [|a0 [|a1 la]]; simpl in Ha; try lia.
  destruct indices_b as [|b0 [|b1 lb]]; simpl in Hb; try lia.
  cbn [length Nat.eqb orb].
  unfold bind at 1. unfold bind at 1. rewrite Hma.
  unfold bind at 1. rewrite Hmb. cbn [ret fst snd].
  unfold bind at 1. unfold lift at 1. rewrite adjustment_check_num.
  assert (Qc_leb qa 0 || Qc_ltb 1 qa || Qc_leb qb 0 || Qc_ltb 1 qb = true)
    as ->; [|reflexivity].
  destruct (Qc_leb qa 0) eqn:E1; [done|].
  destruct (Qc_ltb 1 qa) eqn:E2; [done|].
  destruct (Qc_leb qb 0) eqn:E3; [done|].
  destruct (Qc_ltb 1 qb) eqn:E4; [done|].
  exfalso.
  assert (Hqa : 0 < qa).
  { apply Qcnot_le_lt. intros Hle. apply Qc_leb_iff in Hle. congruence. }
  assert (Hqb : 0 < qb).
  { apply Qcnot_le_lt. intros Hle. apply Qc_leb_iff in Hle. congruence. }
  apply Qc_ltb_false in E2, E4. destruct Hbad as [Hbad|Hbad]; apply Hbad; done.
Qed.

(** C1: [contribution] does raise for a data-shape reason.  With an empty
    [docs] map and a fresh calculator, groups of two make the intra-group
    mean unavailable and [contribution] raises [TypeError]; with singleton
    groups and a missing text the inter-group mean is unavailable and
    [contribution] raises [TypeError] as well. *)
Theorem contribution_raises_on_unavailable_mean
    (fit_transform : string → string → option (list Qc * list Qc)) :
  fst (contribution fit_transform ["1"; "2"] ["3"; "4"] ∅ new_calc)
    = Raise TypeError
  ∧ fst (contribution fit_transform ["1"] ["2"] docs_partial new_calc)
    = Raise TypeError.
Proof. split; reflexivity. Qed.

(** C2: an unavailable adjustment parameter does not make [contribution]
    return the undefined result.  With an empty [docs] map and a fresh
    calculator the intra-group mean of [["1"; "2"]] is unavailable, and
    [contribution] raises [TypeError] at the first bound check. *)
Theorem unavailable_adjustment_raises
    (fit_transform : string → string → option (list Qc * list Qc)) :
  fst (_mean_distance fit_transform ["1"; "2"] ["1"; "2"] ∅ new_calc)
    = Ok VNone
  ∧ fst (contribution fit_transform ["1"; "2"] ["3"; "4"] ∅ new_calc)
    = Raise TypeError
  ∧ fst (contribution fit_transform ["1"; "2"] ["3"; "4"] ∅ new_calc)
    ≠ Ok VNone.
Proof. split; [reflexivity|split; [reflexivity|discriminate]]. Qed.

(** ** Cache invariants *)

Lemma cache_lookup_empty (a b : string) : cache_lookup ∅ a b = None.
Proof. unfold cache_lookup. by rewrite lookup_empty. Qed.

Lemma cache_inv_empty : cache_inv ∅.
Proof. split; intros ?; intros; by rewrite !cache_lookup_empty. Qed.

Lemma add_distance_inv (idx1 idx2 : string) (distance : value)
    (d : gmap string (gmap string value)) :
  idx1 ≠ idx2 → cache_inv d → cache_inv (add_distance idx1 idx2 distance d).
Proof.
  intros Hne [Hsym Hself]. split.
  - intros a b. rewrite !cache_lookup_add_distance, (Hsym a b).
    repeat case_decide; naive_solver.
  - intros a. rewrite cache_lookup_add_distance, Hself.
    case_decide; naive_solver.
Qed.

Section Invariants.

Variable fit_transform : string → string → option (list Qc * list Qc).

Lemma pair_step_keeps_inv docs acc p :
  preserves keeps_inv (pair_step fit_transform docs acc p).
Proof.
  intros s Hinv.
  destruct (pair_step_outcome fit_transform docs acc p s);
    cbn [snd calculated_distances]; try done.
  by apply add_distance_inv.
Qed.

Lemma writes_in_range_refl s : writes_in_range s s.
Proof. intros a b v Hv. by left. Qed.

Lemma writes_in_range_trans s1 s2 s3 :
  writes_in_range s1 s2 → writes_in_range s2 s3 → writes_in_range s1 s3.
Proof.
  intros H12 H23 a b v Hv.
  destruct (H23 a b v Hv) as [Hv2|Hin]; [|by right].
  by apply H12.
Qed.

Lemma pair_step_writes_in_range docs acc p :
  preserves writes_in_range (pair_step fit_transform docs acc p).
Proof.
  intros s.
  destruct (pair_step_outcome fit_transform docs acc p s) as [| | |q ? ? Hd];
    intros a b v; cbn [snd calculated_distances]; try (by left).
  rewrite cache_lookup_add_distance.
  case_decide; [|by left].
  intros [= <-]. right. exists q. split; [done|].
  by eapply document_distance_bounds.
Qed.

Lemma pair_step_keeps_entries docs acc p :
  preserves keeps_entries (pair_step fit_transform docs acc p).
Proof.
  intros s a b Hab.
  destruct (pair_step_outcome fit_transform docs acc p s);
    cbn [snd calculated_distances]; try done.
  rewrite cache_lookup_add_distance. case_decide; eauto.
Qed.

End Invariants.

Lemma written_in_range_no_unavailable (d d' : gmap string (gmap string value)) :
  written_in_range d d' → no_unavailable d → no_unavailable d'.
Proof.
  intros Hw Hd a b Hab. destruct (Hw a b VNone Hab) as [H|[q [H _]]].
  - by apply (Hd a b).
  - discriminate.
Qed.

(** ** Means of singleton groups, and cache hits *)

Lemma bind_ret_r {A} (m : M A) (s : calc) : bind m ret s = m s.
Proof. unfold bind, ret. by destruct (m s) as [[a|e] s']. Qed.

Lemma mean_distance_unfold
    (fit_transform : string → string → option (list Qc * list Qc))
    (indices_a indices_b : list string) (docs : gmap string doc_entry)
    (s : calc) :
  _mean_distance fit_transform indices_a indices_b docs s
  = match _pairwise_distances fit_transform indices_a indices_b docs s with
    | (Ok distances, s') => (arith_mean distances, s')
    | (Raise e, s') => (Raise e, s')
    end.
Proof.
  unfold _mean_distance, bind at 1.
  destruct (_pairwise_distances fit_transform indices_a indices_b docs s)
    as [[distances|e] s']; [|done].
  unfold arith_mean. destruct (length distances =? 0)%nat; [done|].
  unfold bind, lift. by destruct (Py.sum distances).
Qed.

Lemma arith_mean_one (v : value) :
  arith_mean [v] = match v with VNum q => Ok (VNum q) | VNone => Raise TypeError end.
Proof.
  destruct v as [|q]; [reflexivity|].
  unfold arith_mean, Py.sum. cbn [length Nat.eqb Py.sum_from Py.add].
  change (Py.len [VNum q]) with (VNum 1).
  unfold Py.truediv. rewrite Qc_one_neq_zero.
  by rewrite Qcplus_0_l, Qcdiv_right_id.
Qed.

Lemma pairwise_distances_singletons
    (fit_transform : string → string → option (list Qc * list Qc))
    (a b : string) (docs : gmap string doc_entry) (s : calc) :
  _pairwise_distances fit_transform [a] [b] docs s
  = pair_step fit_transform docs [] (a, b) s.
Proof.
  unfold _pairwise_distances. cbn [pairs flat_map map app for_pairs].
  apply bind_ret_r.
Qed.

(** A successful inter-group mean of two singletons leaves the pair in
    the cache, holding that mean. *)
Lemma mean_distance_singletons_cached
    (fit_transform : string → string → option (list Qc * list Qc))
    (a b : string) (docs : gmap string doc_entry) (s s' : calc) (m : Qc) :
  _mean_distance fit_transform [a] [b] docs s = (Ok (VNum m), s') →
  cache_lookup (calculated_distances s') a b = Some (VNum m).
Proof.
  rewrite mean_distance_unfold, pairwise_distances_singletons.
  pose proof (pair_step_outcome fit_transform docs [] (a, b) s) as Hout.
  destruct (pair_step fit_transform docs [] (a, b) s) as [r s1].
  inversion Hout as [Heq|dist Hne Hhit|Hne Hmiss Hd|q Hne Hmiss Hd];
    subst; simpl in *.
  - discriminate.
  - rewrite arith_mean_one. destruct dist; [discriminate|].
    by intros [= -> <-].
  - discriminate.
  - rewrite arith_mean_one. intros [= -> <-].
    cbn [calculated_distances]. rewrite cache_lookup_add_distance.
    by rewrite decide_True by auto.
Qed.

Lemma mean_distance_singletons_hit
    (fit_transform : string → string → option (list Qc * list Qc))
    (a b : string) (docs : gmap string doc_entry) (s : calc) (dist : value) :
  a ≠ b →
  cache_lookup (calculated_distances s) a b = Some dist →
  _mean_distance fit_transform [a] [b] docs s = (arith_mean [dist], s).
Proof.
  intros Hne Hhit.
  rewrite mean_distance_unfold, pairwise_distances_singletons.
  by rewrite (pair_step_hit fit_transform docs a b dist).
Qed.

(** C7: a pair [(a, b)] with [a ≠ b] that is in the cache is answered from
    the cache: the loop body appends the cached value and leaves the
    calculator, including its trace of text look-ups and engine
    invocations, untouched, whatever [docs] holds.  Hence when the cache
    was left by a successful [contribution [a] [b]] call, a second call
    returns the same value, which is the cached distance, again without
    any look-up or engine invocation. *)
Theorem cached_distance_reused
    (fit_transform : string → string → option (list Qc * list Qc))
    (docs : gmap string doc_entry) (a b : string) (dist : value) (s : calc) :
  a ≠ b →
  cache_lookup (calculated_distances s) a b = Some dist →
  (∀ acc, pair_step fit_transform docs acc (a, b) s = (Ok (acc ++ [dist]), s))
  ∧ _pairwise_distances fit_transform [a] [b] docs s = (Ok [dist], s)
  ∧ (∀ docs0 s0 v,
       contribution fit_transform [a] [b] docs0 s0 = (Ok v, s) →
       contribution fit_transform [a] [b] docs s = (Ok v, s)
       ∧ (is_num v = true → v = dist)).
Proof.
  intros Hne Hhit. split; [|split].
  - intros acc. by apply pair_step_hit.
  - rewrite pairwise_distances_singletons.
    by rewrite (pair_step_hit fit_transform docs a b dist).
  - intros docs0 s0 v Hfirst.
    rewrite contribution_singletons in Hfirst.
    destruct (_mean_distance fit_transform [a] [b] docs0 s0)
      as [[[|m]|e] s1] eqn:Hmean; try discriminate.
    apply mean_distance_singletons_cached in Hmean.
    assert (contribution fit_transform [a] [b] docs s
            = if Qc_ltb m 0 || Qc_ltb 1 m then (Ok VNone, s)
              else (Ok (VNum m), s)) as Hsecond.
    { assert (s1 = s) as -> by (by destruct (Qc_ltb m 0 || Qc_ltb 1 m);
                                   injection Hfirst).
      rewrite Hhit in Hmean. injection Hmean as ->.
      rewrite contribution_singletons.
      rewrite (mean_distance_singletons_hit _ a b docs s (VNum m)) by done.
      by rewrite arith_mean_one. }
    rewrite Hsecond.
    destruct (Qc_ltb m 0 || Qc_ltb 1 m); injection Hfirst as <- ->.
    + split; [done|]. discriminate.
    + split; [done|]. intros _. rewrite Hhit in Hmean. by injection Hmean.
Qed.

Lemma cached_distance_reused_witness :
  (∀ acc, pair_step stub_fit_transform ∅ acc ("1", "3") calc_after_1_3
          = (Ok (acc ++ [VNum 1]), calc_after_1_3))
  ∧ _pairwise_distances stub_fit_transform ["1"] ["3"] ∅ calc_after_1_3
    = (Ok [VNum 1], calc_after_1_3)
  ∧ contribution stub_fit_transform ["1"] ["3"] ∅ calc_after_1_3
    = (Ok (VNum 1), calc_after_1_3).
Proof.
  destruct (cached_distance_reused stub_fit_transform ∅ "1" "3" (VNum 1)
              calc_after_1_3) as (Hstep & Hpairwise & Hsecond).
  - discriminate.
  - vm_compute. reflexivity.
  - split; [exact Hstep|]. split; [exact Hpairwise|].
    apply (Hsecond docs_pets new_calc (VNum 1)).
    vm_compute. reflexivity.
Defined.

(** ** The cache stays symmetric and free of self-pairs *)

Lemma keeps_inv_refl (s : calc) : keeps_inv s s.
Proof. by intros H. Qed.

Lemma keeps_inv_trans (s1 s2 s3 : calc) :
  keeps_inv s1 s2 → keeps_inv s2 s3 → keeps_inv s1 s3.
Proof. unfold keeps_inv. auto. Qed.

(** C8, as stated, fails for [_add_distance] taken on its own: called with
    twice the same index on a fresh calculator it stores a self-pair. *)
Lemma add_distance_self_pair_counterexample :
  ¬ (∀ idx1 idx2 distance s,
       cache_inv (calculated_distances s) →
       cache_inv (calculated_distances
                    (snd (_add_distance idx1 idx2 distance s)))).
Proof.
  intros H.
  destruct (H "1" "1" (VNum 1) new_calc cache_inv_empty) as [_ Hself].
  specialize (Hself "1"). vm_compute in Hself. discriminate.
Qed.

(** C8 (amended): from a cache that is symmetric and free of self-pairs,
    reading the cache leaves the calculator as it is; [_add_distance] on
    two different indices, which is the only way [_pairwise_distances]
    calls it, keeps the cache symmetric and free of self-pairs; and so do
    [_pairwise_distances], [_mean_distance] and [contribution] on all
    inputs, also when [contribution] ends with an exception. *)
Theorem cache_invariant_preserved
    (fit_transform : string → string → option (list Qc * list Qc))
    (indices_a indices_b : list string) (docs : gmap string doc_entry)
    (idx1 idx2 : string) (distance : value) (s : calc) :
  cache_inv (calculated_distances s) →
  idx1 ≠ idx2 →
  get_calculated_distances s = (Ok (calculated_distances s), s)
  ∧ cache_inv (calculated_distances (snd (_add_distance idx1 idx2 distance s)))
  ∧ cache_inv (calculated_distances
                 (snd (_pairwise_distances fit_transform
                         indices_a indices_b docs s)))
  ∧ cache_inv (calculated_distances
                 (snd (_mean_distance fit_transform
                         indices_a indices_b docs s)))
  ∧ cache_inv (calculated_distances
                 (snd (contribution fit_transform
                         indices_a indices_b docs s))).
Proof.
  intros Hinv Hne. split; [reflexivity|]. split.
  { cbn. by apply add_distance_inv. }
  split; [|split].
  - by apply (preserves_pairwise_distances fit_transform keeps_inv
                keeps_inv_refl keeps_inv_trans
                (pair_step_keeps_inv fit_transform)).
  - by apply (preserves_mean_distance fit_transform keeps_inv
                keeps_inv_refl keeps_inv_trans
                (pair_step_keeps_inv fit_transform)).
  - by apply (preserves_contribution fit_transform keeps_inv
                keeps_inv_refl keeps_inv_trans
                (pair_step_keeps_inv fit_transform)).
Qed.

Lemma cache_invariant_preserved_witness :
  get_calculated_distances new_calc = (Ok (calculated_distances new_calc), new_calc)
  ∧ cache_inv (calculated_distances (snd (_add_distance "1" "2" (VNum 1) new_calc)))
  ∧ cache_inv (calculated_distances
                 (snd (_pairwise_distances stub_fit_transform
                         ["1"; "3"] ["2"] docs_pets new_calc)))
  ∧ cache_inv (calculated_distances
                 (snd (_mean_distance stub_fit_transform
                         ["1"; "3"] ["2"] docs_pets new_calc)))
  ∧ cache_inv (calculated_distances
                 (snd (contribution stub_fit_transform
                         ["1"; "3"] ["2"] docs_pets new_calc))).
Proof.
  apply (cache_invariant_preserved stub_fit_transform ["1"; "3"] ["2"]
           docs_pets "1" "2" (VNum 1) new_calc).
  - apply cache_inv_empty.
  - discriminate.
Defined.

(** ** Unavailable distances are never cached *)

(** C9: a distance is stored only when [document_distance] produced a
    number, so every entry that [_pairwise_distances] or [contribution]
    writes is a number within [0, 1] and a cache without [None] entries
    stays without them; a pair whose distance is unavailable is not
    stored, so it misses again and the engine is invoked again on the next
    call. *)
Theorem unavailable_never_cached
    (fit_transform : string → string → option (list Qc * list Qc))
    (indices_a indices_b : list string) (docs : gmap string doc_entry)
    (a b : string) (s : calc) :
  no_unavailable (calculated_distances s) →
  a ≠ b →
  cache_lookup (calculated_distances s) a b = None →
  document_distance fit_transform
    (_get_document_text docs a) (_get_document_text docs b) = VNone →
  written_in_range (calculated_distances s)
    (calculated_distances
       (snd (_pairwise_distances fit_transform indices_a indices_b docs s)))
  ∧ written_in_range (calculated_distances s)
      (calculated_distances
         (snd (contribution fit_transform indices_a indices_b docs s)))
  ∧ no_unavailable
      (calculated_distances
         (snd (contribution fit_transform indices_a indices_b docs s)))
  ∧ let s1 := Calc (calculated_distances s) (miss_events docs a b ++ trace s) in
    let s2 := Calc (calculated_distances s) (miss_events docs a b ++ trace s1) in
    _pairwise_distances fit_transform [a] [b] docs s = (Ok [], s1)
    ∧ _pairwise_distances fit_transform [a] [b] docs s1 = (Ok [], s2).
Proof.
  intros Hnone Hne Hmiss Hdist.
  assert (Hpw : writes_in_range s
            (snd (_pairwise_distances fit_transform indices_a indices_b docs s))).
  { apply (preserves_pairwise_distances fit_transform writes_in_range
             writes_in_range_refl writes_in_range_trans
             (pair_step_writes_in_range fit_transform)). }
  assert (Hc : writes_in_range s
            (snd (contribution fit_transform indices_a indices_b docs s))).
  { apply (preserves_contribution fit_transform writes_in_range
             writes_in_range_refl writes_in_range_trans
             (pair_step_writes_in_range fit_transform)). }
  split; [exact Hpw|]. split; [exact Hc|]. split.
  { by apply (written_in_range_no_unavailable (calculated_distances s)). }
  cbn zeta. rewrite !pairwise_distances_singletons. split.
  - by apply pair_step_miss_none.
  - by apply (pair_step_miss_none fit_transform docs a b []
                (Calc (calculated_distances s) (miss_events docs a b ++ trace s))).
Qed.

Lemma unavailable_never_cached_witness :
  written_in_range (calculated_distances new_calc)
    (calculated_distances
       (snd (_pairwise_distances stub_fit_transform ["1"; "3"] ["2"]
               docs_pets new_calc)))
  ∧ written_in_range (calculated_distances new_calc)
      (calculated_distances
         (snd (contribution stub_fit_transform ["1"; "3"] ["2"]
                 docs_pets new_calc)))
  ∧ no_unavailable
      (calculated_distances
         (snd (contribution stub_fit_transform ["1"; "3"] ["2"]
                 docs_pets new_calc)))
  ∧ let s1 := Calc (calculated_distances new_calc)
                (miss_events docs_pets "1" "4" ++ trace new_calc) in
    let s2 := Calc (calculated_distances new_calc)
                (miss_events docs_pets "1" "4" ++ trace s1) in
    _pairwise_distances stub_fit_transform ["1"] ["4"] docs_pets new_calc
      = (Ok [], s1)
    ∧ _pairwise_distances stub_fit_transform ["1"] ["4"] docs_pets s1
      = (Ok [], s2).
Proof.
  apply (unavailable_never_cached stub_fit_transform ["1"; "3"] ["2"]
           docs_pets "1" "4" new_calc).
  - intros a b. cbn [new_calc calculated_distances].
    by rewrite cache_lookup_empty.
  - discriminate.
  - vm_compute. reflexivity.
  - vm_compute. reflexivity.
Defined.

(** ** Weighting by occurrence *)

Lemma occurrences_cons {K} `{EqDecision K} (x y : K) (l : list K) :
  occurrences x (y :: l)
  = ((if decide (y = x) then 1 else 0) + occurrences x l)%nat.
Proof.
  unfold occurrences. rewrite filter_cons. by case_decide.
Qed.

Lemma occurrences_app {K} `{EqDecision K} (x : K) (l1 l2 : list K) :
  occurrences x (l1 ++ l2) = (occurrences x l1 + occurrences x l2)%nat.
Proof. unfold occurrences. by rewrite list.filter_app, length_app. Qed.

Lemma occurrences_row (a b x : string) (indices_b : list string) :
  occurrences (a, b) (map (λ y, (x, y)) indices_b)
  = if decide (x = a) then occurrences b indices_b else 0%nat.
Proof.
  induction indices_b as [|y l IH]; simpl.
  - by case_decide.
  - rewrite !occurrences_cons, IH.
    repeat case_decide; simplify_eq; try done; lia.
Qed.

Lemma occurrences_pairs (a b : string) (indices_a indices_b : list string) :
  occurrences (a, b) (pairs indices_a indices_b)
  = (occurrences a indices_a * occurrences b indices_b)%nat.
Proof.
  unfold pairs. induction indices_a as [|x l IH]; simpl; [done|].
  rewrite occurrences_app, occurrences_row, IH, occurrences_cons.
  case_decide; lia.
Qed.

Section Occurrences.

Variable fit_transform : string → string → option (list Qc * list Qc).
Variable docs : gmap string doc_entry.

(** The accumulator is only ever extended. *)
Lemma pair_step_acc (acc : list value) (p : string * string) (s : calc) :
  pair_step fit_transform docs acc p s
  = match pair_step fit_transform docs [] p s with
    | (Ok l, s') => (Ok (acc ++ l), s')
    | (Raise e, s') => (Raise e, s')
    end.
Proof.
  destruct p as [a b].
  destruct (decide (a = b)) as [->|Hne].
  { rewrite !pair_step_self. by rewrite app_nil_r. }
  destruct (cache_lookup (calculated_distances s) a b) as [dist|] eqn:Hc.
  { by rewrite !(pair_step_hit fit_transform docs a b dist). }
  destruct (document_distance fit_transform
              (_get_document_text docs a) (_get_document_text docs b))
    as [|q] eqn:Hd.
  - rewrite !pair_step_miss_none by done. by rewrite app_nil_r.
  - by rewrite !(pair_step_miss_num fit_transform docs a b q).
Qed.

Lemma for_pairs_iterations (ps : list (string * string))
    (acc : list value) (s : calc) :
  fst (for_pairs fit_transform docs acc ps s)
  = Ok (acc ++ concat (map snd (iterations fit_transform docs ps s))).
Proof.
  revert acc s. induction ps as [|p ps IH]; intros acc s; simpl.
  - by rewrite app_nil_r.
  - unfold bind. rewrite pair_step_acc.
    destruct (pair_step_ok fit_transform docs [] p s) as [l Hl].
    destruct (pair_step fit_transform docs [] p s) as [r s'].
    simpl in Hl. subst r. simpl. by rewrite IH, app_assoc.
Qed.

Lemma resolvable_step (a b : string) (acc : list value)
    (p : string * string) (s : calc) :
  resolvable fit_transform docs (calculated_distances s) a b →
  resolvable fit_transform docs
    (calculated_distances (snd (pair_step fit_transform docs acc p s))) a b.
Proof.
  intros [Hc|He]; [left|by right].
  by apply (pair_step_keeps_entries fit_transform docs acc p s).
Qed.

(** A resolvable pair of different indices appends exactly one entry. *)
Lemma resolvable_one_entry (a b : string) (s : calc) :
  a ≠ b →
  resolvable fit_transform docs (calculated_distances s) a b →
  ∃ v, fst (pair_step fit_transform docs [] (a, b) s) = Ok [v].
Proof.
  intros Hne Hres.
  destruct (cache_lookup (calculated_distances s) a b) as [dist|] eqn:Hc.
  { rewrite (pair_step_hit fit_transform docs a b dist) by done. eauto. }
  destruct Hres as [[v Hv]|He]; [congruence|].
  destruct (document_distance fit_transform
              (_get_document_text docs a) (_get_document_text docs b))
    as [|q] eqn:Hd; [done|].
  rewrite (pair_step_miss_num fit_transform docs a b q) by done. eauto.
Qed.

Lemma entries_of_iterations (a b : string) (ps : list (string * string))
    (s : calc) :
  a ≠ b →
  resolvable fit_transform docs (calculated_distances s) a b →
  length (entries_of (a, b) (iterations fit_transform docs ps s))
  = occurrences (a, b) ps.
Proof.
  intros Hne. revert s. induction ps as [|p ps IH]; intros s Hres; [done|].
  cbn [iterations]. unfold entries_of in *.
  rewrite filter_cons, occurrences_cons. cbn [fst].
  pose proof (resolvable_step a b [] p s Hres) as Hres'.
  case_decide as Hp.
  - subst p. destruct (resolvable_one_entry a b s Hne Hres) as [v Hv].
    cbn [map concat snd]. rewrite length_app, IH by done.
    by rewrite Hv.
  - by rewrite IH.
Qed.

End Occurrences.

(** C10: pairs are weighted by occurrence.  The list returned by
    [_pairwise_distances] is the concatenation of what the iterations
    append, one iteration per element of the pair list; when index [a]
    occurs [k] times in [indices_a], a different index [b] occurs [m]
    times in [indices_b], and their distance can be resolved, the
    iterations on [(a, b)] contribute exactly [k * m] entries.  On the pets
    fixture, listing document 1 twice moves the mean from 1/2 to 1/3. *)
Theorem occurrence_weighting
    (fit_transform : string → string → option (list Qc * list Qc))
    (docs : gmap string doc_entry) (indices_a indices_b : list string)
    (a b : string) (s : calc) :
  a ≠ b →
  resolvable fit_transform docs (calculated_distances s) a b →
  fst (_pairwise_distances fit_transform indices_a indices_b docs s)
    = Ok (concat (map snd (iterations fit_transform docs
                             (pairs indices_a indices_b) s)))
  ∧ length (entries_of (a, b)
              (iterations fit_transform docs (pairs indices_a indices_b) s))
    = (occurrences a indices_a * occurrences b indices_b)%nat
  ∧ fst (_mean_distance stub_fit_transform ["1"; "3"] ["2"] docs_pets new_calc)
    = Ok (VNum (Q2Qc (1 # 2)))
  ∧ fst (_mean_distance stub_fit_transform ["1"; "1"; "3"] ["2"]
           docs_pets new_calc)
    = Ok (VNum (Q2Qc (1 # 3))).
Proof.
  intros Hne Hres. split; [|split; [|split]].
  - unfold _pairwise_distances. by rewrite for_pairs_iterations.
  - rewrite entries_of_iterations by done. apply occurrences_pairs.
  - vm_compute. reflexivity.
  - vm_compute. reflexivity.
Qed.

Lemma occurrence_weighting_witness :
  fst (_pairwise_distances stub_fit_transform ["1"; "1"; "3"] ["2"]
         docs_pets new_calc)
    = Ok (concat (map snd (iterations stub_fit_transform docs_pets
                             (pairs ["1"; "1"; "3"] ["2"]) new_calc)))
  ∧ length (entries_of ("1", "2")
              (iterations stub_fit_transform docs_pets
                 (pairs ["1"; "1"; "3"] ["2"]) new_calc))
    = (occurrences "1" ["1"; "1"; "3"] * occurrences "2" ["2"])%nat
  ∧ fst (_mean_distance stub_fit_transform ["1"; "3"] ["2"] docs_pets new_calc)
    = Ok (VNum (Q2Qc (1 # 2)))
  ∧ fst (_mean_distance stub_fit_transform ["1"; "1"; "3"] ["2"]
           docs_pets new_calc)
    = Ok (VNum (Q2Qc (1 # 3))).
Proof.
  apply (occurrence_weighting stub_fit_transform docs_pets
           ["1"; "1"; "3"] ["2"] "1" "2" new_calc).
  - discriminate.
  - right. vm_compute. reflexivity.
Defined.

(** ** Further properties: texts, cache updates, reuse *)

Lemma lacks_text_empty (docs : gmap string doc_entry) (idx : string) :
  lacks_text docs idx → _get_document_text docs idx = EmptyString.
Proof.
  unfold lacks_text, _get_document_text.
  intros [H|[H|[H|H]]]; by rewrite H.
Qed.

Lemma document_distance_empty
    (fit_transform : string → string → option (list Qc * list Qc))
    (d1 d2 : string) :
  d1 = EmptyString ∨ d2 = EmptyString →
  document_distance fit_transform d1 d2 = VNone.
Proof.
  unfold document_distance. intros [->| ->]; [done|].
  by rewrite orb_true_r.
Qed.

(** A document without usable text (missing from [docs], [None], NaN or
    the empty string) yields no distance: an uncached pair involving it is
    skipped, whatever the vectorizer, nothing is stored, and the mean of
    the two singletons is unavailable. *)
Theorem missing_text_pair_skipped
    (fit_transform : string → string → option (list Qc * list Qc))
    (docs : gmap string doc_entry) (a b : string) (s : calc) :
  lacks_text docs a ∨ lacks_text docs b →
  a ≠ b →
  cache_lookup (calculated_distances s) a b = None →
  let s' := Calc (calculated_distances s) (miss_events docs a b ++ trace s) in
  _pairwise_distances fit_transform [a] [b] docs s = (Ok [], s')
  ∧ _mean_distance fit_transform [a] [b] docs s = (Ok VNone, s').
Proof.
  intros Hlack Hne Hmiss s'.
  assert (Hd : document_distance fit_transform
                 (_get_document_text docs a) (_get_document_text docs b)
               = VNone).
  { apply document_distance_empty.
    destruct Hlack as [H|H]; [left|right]; by apply lacks_text_empty. }
  assert (Hpw : _pairwise_distances fit_transform [a] [b] docs s = (Ok [], s')).
  { rewrite pairwise_distances_singletons. by apply pair_step_miss_none. }
  split; [exact Hpw|].
  by rewrite mean_distance_unfold, Hpw.
Qed.

Lemma missing_text_pair_skipped_witness :
  let s' := Calc (calculated_distances new_calc)
              (miss_events docs_partial "1" "2" ++ trace new_calc) in
  _pairwise_distances stub_fit_transform ["1"] ["2"] docs_partial new_calc
    = (Ok [], s')
  ∧ _mean_distance stub_fit_transform ["1"] ["2"] docs_partial new_calc
    = (Ok VNone, s').
Proof.
  apply (missing_text_pair_skipped stub_fit_transform docs_partial "1" "2"
           new_calc).
  - right. left. vm_compute. reflexivity.
  - discriminate.
  - vm_compute. reflexivity.
Defined.

(** After [_add_distance idx1 idx2 distance] the distance is found under
    both orderings of the pair, every other pair reads as before, and
    nothing but the dictionary changed. *)
Theorem add_distance_round_trip
    (idx1 idx2 a b : string) (distance : value) (s : calc) :
  ¬ ((a = idx1 ∧ b = idx2) ∨ (a = idx2 ∧ b = idx1)) →
  let s' := snd (_add_distance idx1 idx2 distance s) in
  cache_lookup (calculated_distances s') idx1 idx2 = Some distance
  ∧ cache_lookup (calculated_distances s') idx2 idx1 = Some distance
  ∧ cache_lookup (calculated_distances s') a b
    = cache_lookup (calculated_distances s) a b
  ∧ trace s' = trace s.
Proof.
  intros Hother s'. subst s'. cbn.
  rewrite !cache_lookup_add_distance.
  rewrite !decide_True by auto. by rewrite decide_False.
Qed.

Lemma add_distance_round_trip_witness :
  let s' := snd (_add_distance "1" "2" (VNum 1) calc_after_1_3) in
  cache_lookup (calculated_distances s') "1" "2" = Some (VNum 1)
  ∧ cache_lookup (calculated_distances s') "2" "1" = Some (VNum 1)
  ∧ cache_lookup (calculated_distances s') "1" "3"
    = cache_lookup (calculated_distances calc_after_1_3) "1" "3"
  ∧ trace s' = trace calc_after_1_3.
Proof.
  apply (add_distance_round_trip "1" "2" "1" "3" (VNum 1) calc_after_1_3).
  intros [[_ H]|[H _]]; discriminate.
Defined.

(** [_add_distance] overwrites: of two writes to the same pair, in either
    order of its indices, the last one is read back; and writing
    [(idx1, idx2)] or [(idx2, idx1)] gives a cache with the same
    look-ups. *)
Theorem add_distance_last_write_wins
    (idx1 idx2 a b : string) (first second : value)
    (d : gmap string (gmap string value)) :
  cache_lookup (add_distance idx1 idx2 second
                  (add_distance idx1 idx2 first d)) idx1 idx2 = Some second
  ∧ cache_lookup (add_distance idx2 idx1 second
                    (add_distance idx1 idx2 first d)) idx1 idx2 = Some second
  ∧ cache_lookup (add_distance idx1 idx2 first d) a b
    = cache_lookup (add_distance idx2 idx1 first d) a b.
Proof.
  rewrite !cache_lookup_add_distance.
  rewrite !decide_True by auto. split; [done|]. split; [done|].
  repeat case_decide; naive_solver.
Qed.

Lemma add_distance_symmetric (idx1 idx2 : string) (distance : value)
    (d : gmap string (gmap string value)) :
  cache_symmetric d → cache_symmetric (add_distance idx1 idx2 distance d).
Proof.
  intros Hsym a b. rewrite !cache_lookup_add_distance, (Hsym a b).
  repeat case_decide; naive_solver.
Qed.

(** Once the distance of [(a, b)] was resolved, the pair [(b, a)] is a
    cache hit with the same value: from a symmetric cache, asking for
    [[b]] against [[a]] afterwards returns the same distance and performs
    no text look-up and no engine invocation, whatever [docs] holds. *)
Theorem reversed_pair_reused
    (fit_transform : string → string → option (list Qc * list Qc))
    (docs docs' : gmap string doc_entry) (a b : string) (v : value)
    (s s1 : calc) :
  cache_symmetric (calculated_distances s) →
  _pairwise_distances fit_transform [a] [b] docs s = (Ok [v], s1) →
  _pairwise_distances fit_transform [b] [a] docs' s1 = (Ok [v], s1).
Proof.
  intros Hsym. rewrite !pairwise_distances_singletons.
  pose proof (pair_step_outcome fit_transform docs [] (a, b) s) as Hout.
  destruct (pair_step fit_transform docs [] (a, b) s) as [r s2].
  inversion Hout as [Heq|dist Hne Hhit|Hne Hmiss Hd|q Hne Hmiss Hd];
    subst; simpl in *; intros [= <- <-] || intros [=].
  - apply (pair_step_hit fit_transform docs' b a dist []); [done|].
    by rewrite <- (Hsym a b).
  - apply (pair_step_hit fit_transform docs' b a (VNum q) []); [done|].
    cbn [calculated_distances]. rewrite cache_lookup_add_distance.
    by rewrite decide_True by auto.
Qed.

Lemma reversed_pair_reused_witness :
  _pairwise_distances stub_fit_transform ["3"] ["1"] ∅ calc_after_1_3
  = (Ok [VNum 1], calc_after_1_3).
Proof.
  apply (reversed_pair_reused stub_fit_transform docs_pets ∅ "1" "3" (VNum 1)
           new_calc calc_after_1_3).
  - intros a b. cbn [new_calc calculated_distances].
    by rewrite !cache_lookup_empty.
  - vm_compute. reflexivity.
Defined.

(** ** Further properties: what a call does to the cache *)

Lemma keeps_values_refl (s : calc) : keeps_values s s.
Proof. by intros Hsym. Qed.

Lemma keeps_values_trans (s1 s2 s3 : calc) :
  keeps_values s1 s2 → keeps_values s2 s3 → keeps_values s1 s3.
Proof.
  intros H12 H23 Hsym. destruct (H12 Hsym) as [Hsym2 Hv12].
  destruct (H23 Hsym2) as [Hsym3 Hv23]. split; [done|].
  intros a b v Hv. by apply Hv23, Hv12.
Qed.

Lemma pair_step_keeps_values
    (fit_transform : string → string → option (list Qc * list Qc))
    (docs : gmap string doc_entry) (acc : list value) (p : string * string) :
  preserves keeps_values (pair_step fit_transform docs acc p).
Proof.
  intros s Hsym.
  destruct (pair_step_outcome fit_transform docs acc p s)
    as [| | |q Hne Hmiss Hd]; cbn [snd calculated_distances]; try done.
  split; [by apply add_distance_symmetric|].
  intros a b v Hv. rewrite cache_lookup_add_distance.
  case_decide as Hab; [|done]. exfalso.
  destruct Hab as [[-> ->]|[-> ->]]; [congruence|].
  rewrite (Hsym p.2 p.1) in Hv. congruence.
Qed.

(** Entries are never evicted and never modified: from a symmetric cache,
    whatever was cached before [contribution] (or [_pairwise_distances],
    or [_mean_distance]) is cached with the same value afterwards, also
    when the call ends with an exception. *)
Theorem cached_entries_stable
    (fit_transform : string → string → option (list Qc * list Qc))
    (indices_a indices_b : list string) (docs : gmap string doc_entry)
    (a b : string) (v : value) (s : calc) :
  cache_symmetric (calculated_distances s) →
  cache_lookup (calculated_distances s) a b = Some v →
  cache_lookup (calculated_distances
                  (snd (_pairwise_distances fit_transform
                          indices_a indices_b docs s))) a b = Some v
  ∧ cache_lookup (calculated_distances
                    (snd (_mean_distance fit_transform
                            indices_a indices_b docs s))) a b = Some v
  ∧ cache_lookup (calculated_distances
                    (snd (contribution fit_transform
                            indices_a indices_b docs s))) a b = Some v.
Proof.
  intros Hsym Hv. split; [|split].
  - by apply (preserves_pairwise_distances fit_transform keeps_values
                keeps_values_refl keeps_values_trans
                (pair_step_keeps_values fit_transform)).
  - by apply (preserves_mean_distance fit_transform keeps_values
                keeps_values_refl keeps_values_trans
                (pair_step_keeps_values fit_transform)).
  - by apply (preserves_contribution fit_transform keeps_values
                keeps_values_refl keeps_values_trans
                (pair_step_keeps_values fit_transform)).
Qed.

Lemma cache_symmetric_after_1_3 :
  cache_symmetric (calculated_distances calc_after_1_3).
Proof.
  apply (preserves_contribution stub_fit_transform keeps_values
           keeps_values_refl keeps_values_trans
           (pair_step_keeps_values stub_fit_transform)
           ["1"] ["3"] docs_pets new_calc).
  intros a b. cbn [new_calc calculated_distances].
  by rewrite !cache_lookup_empty.
Qed.

Lemma cached_entries_stable_witness :
  cache_lookup (calculated_distances
                  (snd (_pairwise_distances stub_fit_transform
                          ["1"; "3"] ["2"] docs_pets calc_after_1_3)))
    "3" "1" = Some (VNum 1)
  ∧ cache_lookup (calculated_distances
                    (snd (_mean_distance stub_fit_transform
                            ["1"; "3"] ["2"] docs_pets calc_after_1_3)))
      "3" "1" = Some (VNum 1)
  ∧ cache_lookup (calculated_distances
                    (snd (contribution stub_fit_transform
                            ["1"; "3"] ["2"] docs_pets calc_after_1_3)))
      "3" "1" = Some (VNum 1).
Proof.
  apply (cached_entries_stable stub_fit_transform ["1"; "3"] ["2"] docs_pets
           "3" "1" (VNum 1) calc_after_1_3).
  - apply cache_symmetric_after_1_3.
  - vm_compute. reflexivity.
Defined.

Lemma keeps_entries_refl (s : calc) : keeps_entries s s.
Proof. by intros a b H. Qed.

Lemma keeps_entries_trans (s1 s2 s3 : calc) :
  keeps_entries s1 s2 → keeps_entries s2 s3 → keeps_entries s1 s3.
Proof. intros H12 H23 a b H. by apply H23, H12. Qed.

Lemma elem_of_pairs (x y : string) (indices_a indices_b : list string) :
  (x, y) ∈ pairs indices_a indices_b ↔ x ∈ indices_a ∧ y ∈ indices_b.
Proof.
  unfold pairs. rewrite !list_elem_of_In, in_flat_map. split.
  - intros (x' & Hx' & Hin). apply in_map_iff in Hin as (y' & [= -> ->] & Hy').
    done.
  - intros [Hx Hy]. exists x. split; [done|]. apply in_map_iff. eauto.
Qed.

Section WarmCache.

Variable fit_transform : string → string → option (list Qc * list Qc).

(** A resolvable pair of different indices is cached after its step. *)
Lemma resolvable_step_cached (docs : gmap string doc_entry)
    (a b : string) (acc : list value) (s : calc) :
  a ≠ b →
  resolvable fit_transform docs (calculated_distances s) a b →
  is_Some (cache_lookup
             (calculated_distances
                (snd (pair_step fit_transform docs acc (a, b) s))) a b).
Proof.
  intros Hne Hres.
  destruct (cache_lookup (calculated_distances s) a b) as [dist|] eqn:Hc.
  { rewrite (pair_step_hit fit_transform docs a b dist) by done.
    cbn [snd]. rewrite Hc. eauto. }
  destruct Hres as [[v Hv]|He]; [congruence|].
  destruct (document_distance fit_transform
              (_get_document_text docs a) (_get_document_text docs b))
    as [|q] eqn:Hd; [done|].
  rewrite (pair_step_miss_num fit_transform docs a b q) by done.
  cbn [snd calculated_distances]. rewrite cache_lookup_add_distance.
  rewrite decide_True by auto. eauto.
Qed.

Lemma for_pairs_caches (docs : gmap string doc_entry)
    (ps : list (string * string)) (acc : list value) (s : calc) :
  (∀ p, p ∈ ps → p.1 ≠ p.2 →
        resolvable fit_transform docs (calculated_distances s) p.1 p.2) →
  ∀ p, p ∈ ps → p.1 ≠ p.2 →
       is_Some (cache_lookup
                  (calculated_distances
                     (snd (for_pairs fit_transform docs acc ps s))) p.1 p.2).
Proof.
  revert acc s. induction ps as [|p0 ps IH]; intros acc s Hres p Hp Hne.
  { by apply elem_of_nil in Hp. }
  cbn [for_pairs]. unfold bind.
  pose proof (resolvable_step_cached docs p0.1 p0.2 acc s) as Hp0.
  pose proof (λ a b, resolvable_step fit_transform docs a b acc p0 s) as Hstep.
  destruct (pair_step_ok fit_transform docs acc p0 s) as [acc' Hacc'].
  destruct p0 as [a0 b0]. simpl in Hp0.
  destruct (pair_step fit_transform docs acc (a0, b0) s) as [r s1].
  simpl in Hacc', Hp0, Hstep. subst r.
  apply elem_of_cons in Hp as [->|Hp].
  - apply (preserves_for_pairs fit_transform keeps_entries
             keeps_entries_refl keeps_entries_trans
             (pair_step_keeps_entries fit_transform) docs ps acc' s1).
    apply Hp0; [done|]. apply (Hres (a0, b0)); [apply list_elem_of_here|done].
  - apply IH; [|done|done].
    intros p' Hp' Hne'. apply Hstep. apply Hres; [|done].
    by apply list_elem_of_further.
Qed.

Lemma for_pairs_all_hits (docs : gmap string doc_entry)
    (ps : list (string * string)) (acc : list value) (s : calc) :
  (∀ p, p ∈ ps → p.1 ≠ p.2 →
        is_Some (cache_lookup (calculated_distances s) p.1 p.2)) →
  snd (for_pairs fit_transform docs acc ps s) = s.
Proof.
  revert acc. induction ps as [|[a b] ps IH]; intros acc Hall; [done|].
  cbn [for_pairs]. unfold bind.
  destruct (decide (a = b)) as [->|Hne].
  - rewrite pair_step_self. apply IH.
    intros p Hp. apply Hall. by apply list_elem_of_further.
  - destruct (Hall (a, b)) as [dist Hdist]; [apply list_elem_of_here|done|].
    rewrite (pair_step_hit fit_transform docs a b dist) by done.
    apply IH. intros p Hp. apply Hall. by apply list_elem_of_further.
Qed.

End WarmCache.

(** A warm cache needs no engine: when the distance of every pair of
    different indices of the two groups can be resolved, one call of
    [_pairwise_distances] leaves all these pairs cached, and a repeated
    call, whatever [docs] then holds, leaves the calculator exactly as it
    is: no text look-up, no engine invocation, no cache write. *)
Theorem warm_cache_no_engine
    (fit_transform : string → string → option (list Qc * list Qc))
    (docs docs' : gmap string doc_entry) (indices_a indices_b : list string)
    (s : calc) :
  (∀ x y, x ∈ indices_a → y ∈ indices_b → x ≠ y →
          resolvable fit_transform docs (calculated_distances s) x y) →
  let s1 := snd (_pairwise_distances fit_transform indices_a indices_b docs s) in
  (∀ x y, x ∈ indices_a → y ∈ indices_b → x ≠ y →
          is_Some (cache_lookup (calculated_distances s1) x y))
  ∧ snd (_pairwise_distances fit_transform indices_a indices_b docs' s1) = s1
  ∧ snd (_mean_distance fit_transform indices_a indices_b docs' s1) = s1.
Proof.
  intros Hres s1.
  assert (Hcached : ∀ x y, x ∈ indices_a → y ∈ indices_b → x ≠ y →
            is_Some (cache_lookup (calculated_distances s1) x y)).
  { intros x y Hx Hy Hne.
    apply (for_pairs_caches fit_transform docs (pairs indices_a indices_b)
             [] s) with (p := (x, y)); [|by apply elem_of_pairs|done].
    intros [x' y'] Hp Hne'. apply elem_of_pairs in Hp as [Hx' Hy'].
    by apply Hres. }
  assert (Hsame : snd (_pairwise_distances fit_transform indices_a indices_b
                         docs' s1) = s1).
  { apply for_pairs_all_hits. intros [x y] Hp Hne.
    apply elem_of_pairs in Hp as [Hx Hy]. by apply Hcached. }
  split; [exact Hcached|]. split; [exact Hsame|].
  rewrite mean_distance_unfold.
  destruct (_pairwise_distances fit_transform indices_a indices_b docs' s1)
    as [[distances|e] s2]; exact Hsame.
Qed.

Lemma warm_cache_no_engine_witness :
  let s1 := snd (_pairwise_distances stub_fit_transform ["1"; "3"] ["2"; "3"]
                   docs_pets new_calc) in
  (∀ x y, x ∈ ["1"; "3"] → y ∈ ["2"; "3"] → x ≠ y →
          is_Some (cache_lookup (calculated_distances s1) x y))
  ∧ snd (_pairwise_distances stub_fit_transform ["1"; "3"] ["2"; "3"] ∅ s1)
    = s1
  ∧ snd (_mean_distance stub_fit_transform ["1"; "3"] ["2"; "3"] ∅ s1) = s1.
Proof.
  apply (warm_cache_no_engine stub_fit_transform docs_pets ∅
           ["1"; "3"] ["2"; "3"] new_calc).
  intros x y Hx Hy Hne. right.
  apply elem_of_cons in Hx as [->|Hx];
    [|apply elem_of_cons in Hx as [->|Hx]; [|by apply elem_of_nil in Hx]];
    (apply elem_of_cons in Hy as [->|Hy];
       [|apply elem_of_cons in Hy as [->|Hy]; [|by apply elem_of_nil in Hy]]);
    vm_compute; reflexivity.
Defined.

(** A calculator constructed from the exported cache reproduces a
    successful [contribution [a] [b]] without touching the engine: the new
    calculator ends exactly as it was constructed, with an empty trace. *)
Theorem exported_cache_reuse
    (fit_transform : string → string → option (list Qc * list Qc))
    (docs docs' : gmap string doc_entry) (a b : string) (v : value)
    (s0 s1 s1' : calc) (exported : gmap string (gmap string value)) :
  contribution fit_transform [a] [b] docs s0 = (Ok v, s1) →
  get_calculated_distances s1 = (Ok exported, s1') →
  contribution fit_transform [a] [b] docs' (ContribCalculator_init (Some exported))
  = (Ok v, ContribCalculator_init (Some exported)).
Proof.
  intros Hfirst [= <- <-].
  destruct (decide (a = b)) as [->|Hne].
  { rewrite contribution_singletons, mean_distance_self in Hfirst.
    discriminate. }
  rewrite contribution_singletons in Hfirst.
  destruct (_mean_distance fit_transform [a] [b] docs s0)
    as [[[|m]|e] s2] eqn:Hmean; try discriminate.
  apply mean_distance_singletons_cached in Hmean.
  assert (s2 = s1) as -> by (by destruct (Qc_ltb m 0 || Qc_ltb 1 m);
                               injection Hfirst).
  rewrite contribution_singletons.
  rewrite (mean_distance_singletons_hit _ a b docs' _ (VNum m)) by done.
  rewrite arith_mean_one.
  by destruct (Qc_ltb m 0 || Qc_ltb 1 m); injection Hfirst as <-.
Qed.

Lemma exported_cache_reuse_witness :
  contribution stub_fit_transform ["1"] ["3"] ∅
    (ContribCalculator_init (Some (calculated_distances calc_after_1_3)))
  = (Ok (VNum 1),
     ContribCalculator_init (Some (calculated_distances calc_after_1_3))).
Proof.
  apply (exported_cache_reuse stub_fit_transform docs_pets ∅ "1" "3" (VNum 1)
           new_calc calc_after_1_3 calc_after_1_3).
  - vm_compute. reflexivity.
  - reflexivity.
Defined.

Lemma for_pairs_length
    (fit_transform : string → string → option (list Qc * list Qc))
    (docs : gmap string doc_entry) (ps : list (string * string))
    (acc : list value) (s : calc) :
  ∃ l, fst (for_pairs fit_transform docs acc ps s) = Ok l
       ∧ (length l ≤ length acc + length ps)%nat.
Proof.
  revert acc s. induction ps as [|p ps IH]; intros acc s; cbn [for_pairs].
  { exists acc. split; [done|]. simpl. lia. }
  unfold bind.
  destruct (pair_step_outcome fit_transform docs acc p s);
    match goal with
    | |- context [for_pairs _ _ ?acc' ps ?s'] =>
        destruct (IH acc' s') as (l & Hl & Hlen)
    end; exists l; (split; [done|]);
    rewrite ?length_app in Hlen; simpl in *; lia.
Qed.

Lemma length_pairs (indices_a indices_b : list string) :
  length (pairs indices_a indices_b)
  = (length indices_a * length indices_b)%nat.
Proof.
  unfold pairs. induction indices_a as [|x l IH]; simpl; [done|].
  by rewrite length_app, length_map, IH.
Qed.

(** [_pairwise_distances] never raises, and it returns at most one
    distance per pair: no more than [len(indices_a) * len(indices_b)]
    entries. *)
Theorem pairwise_distances_length_bound
    (fit_transform : string → string → option (list Qc * list Qc))
    (indices_a indices_b : list string) (docs : gmap string doc_entry)
    (s : calc) :
  ∃ distances,
    fst (_pairwise_distances fit_transform indices_a indices_b docs s)
      = Ok distances
    ∧ (length distances ≤ length indices_a * length indices_b)%nat.
Proof.
  unfold _pairwise_distances.
  destruct (for_pairs_length fit_transform docs (pairs indices_a indices_b)
              [] s) as (l & Hl & Hlen).
  exists l. split; [done|]. by rewrite length_pairs in Hlen.
Qed.

(** ** Further properties: means and the contribution formula *)

Lemma len_S_eq (n : nat) :
  Q2Qc (inject_Z (Z.of_nat (S n))) = Q2Qc (inject_Z (Z.of_nat n)) + 1.
Proof.
  apply Qc_is_canon. unfold Qcplus, Q2Qc. cbn [this].
  rewrite !Qred_correct. rewrite Nat2Z.inj_succ. unfold Z.succ.
  rewrite inject_Z_plus. reflexivity.
Qed.

Lemma len_nonneg (n : nat) : 0 ≤ Q2Qc (inject_Z (Z.of_nat n)).
Proof.
  induction n as [|n IH]; [done|].
  rewrite len_S_eq. by apply Qcplus_nonneg_nonneg.
Qed.

Lemma len_pos (n : nat) : 0 < Q2Qc (inject_Z (Z.of_nat (S n))).
Proof.
  rewrite len_S_eq. apply Qcplus_nonneg_pos; [apply len_nonneg|done].
Qed.

Lemma Qc_eq_bool_pos (x : Qc) : 0 < x → Qc_eq_bool x 0 = false.
Proof.
  intros Hx. destruct (Qc_eq_bool x 0) eqn:E; [|done].
  apply Qc_eq_bool_correct in E. subst. by apply Qclt_not_eq in Hx.
Qed.

Lemma Qc_div_unit (t n : Qc) : 0 < n → 0 ≤ t ≤ n → 0 ≤ t / n ≤ 1.
Proof.
  intros Hn [Ht0 Htn]. unfold Qcdiv.
  pose proof (Qcinv_pos n Hn) as Hinv.
  split.
  - apply Qcmult_nonneg_nonneg; [done|by apply Qclt_le_weak].
  - rewrite <- (Qcmult_inv_r n) by (by apply not_eq_sym, Qclt_not_eq).
    apply Qcmult_le_mono_nonneg_r; [by apply Qclt_le_weak|done].
Qed.

Lemma sum_from_bounds (l : list value) :
  Forall in_unit_interval l →
  ∀ q, ∃ t, Py.sum_from (VNum q) l = Ok (VNum t)
            ∧ q ≤ t ∧ t ≤ q + Q2Qc (inject_Z (Z.of_nat (length l))).
Proof.
  induction 1 as [|v l (x & -> & Hx0 & Hx1) _ IH]; intros q.
  { exists q. split; [done|]. split; [done|].
    cbn [length]. change (Q2Qc (inject_Z (Z.of_nat 0))) with 0.
    by rewrite Qcplus_0_r. }
  cbn [Py.sum_from Py.add length].
  destruct (IH (q + x)) as (t & Ht & Hlo & Hhi).
  exists t. split; [done|]. split.
  - apply Qcle_trans with (q + x); [|done].
    rewrite <- (Qcplus_0_r q) at 1. by apply Qcplus_le_mono_l.
  - apply Qcle_trans with (q + x + Q2Qc (inject_Z (Z.of_nat (length l))));
      [done|].
    rewrite len_S_eq, <- Qcplus_assoc. apply Qcplus_le_mono_l.
    rewrite (Qcplus_comm x). by apply Qcplus_le_mono_l.
Qed.

Lemma arith_mean_in_range (l : list value) :
  Forall in_unit_interval l →
  arith_mean l = Ok VNone ∨ ∃ m, arith_mean l = Ok (VNum m) ∧ 0 ≤ m ≤ 1.
Proof.
  intros Hl. destruct l as [|v l]; [by left|]. right.
  unfold arith_mean, Py.sum. cbn [length Nat.eqb].
  destruct (sum_from_bounds (v :: l) Hl 0) as (t & -> & Hlo & Hhi).
  rewrite Qcplus_0_l in Hhi. cbn [length] in Hhi.
  unfold Py.len, Py.truediv. cbn [length].
  rewrite Qc_eq_bool_pos by apply len_pos.
  eexists. split; [done|]. apply Qc_div_unit; [apply len_pos|done].
Qed.

Lemma for_pairs_in_range
    (fit_transform : string → string → option (list Qc * list Qc))
    (docs : gmap string doc_entry) (ps : list (string * string))
    (acc : list value) (s : calc) :
  cache_in_range (calculated_distances s) →
  Forall in_unit_interval acc →
  ∃ l, fst (for_pairs fit_transform docs acc ps s) = Ok l
       ∧ Forall in_unit_interval l.
Proof.
  revert acc s. induction ps as [|p ps IH]; intros acc s Hc Hacc;
    cbn [for_pairs].
  { by exists acc. }
  unfold bind.
  destruct (pair_step_outcome fit_transform docs acc p s)
    as [|dist Hne Hhit|Hne Hmiss Hd|q Hne Hmiss Hd].
  - by apply IH.
  - apply IH; [done|]. apply Forall_app. split; [done|].
    apply Forall_singleton. by apply (Hc p.1 p.2).
  - by apply IH.
  - apply IH.
    + intros a b v. cbn [calculated_distances].
      rewrite cache_lookup_add_distance. case_decide; [|by apply Hc].
      intros [= <-]. exists q. split; [done|].
      by eapply document_distance_bounds.
    + apply Forall_app. split; [done|]. apply Forall_singleton.
      exists q. split; [done|]. by eapply document_distance_bounds.
Qed.

(** A mean of distances is a distance: when every cached value is a number
    within [0, 1], [_mean_distance] never raises and returns either the
    unavailable result or a number within [0, 1]. *)
Theorem mean_distance_in_unit_interval
    (fit_transform : string → string → option (list Qc * list Qc))
    (indices_a indices_b : list string) (docs : gmap string doc_entry)
    (s : calc) :
  cache_in_range (calculated_distances s) →
  fst (_mean_distance fit_transform indices_a indices_b docs s) = Ok VNone
  ∨ ∃ m, fst (_mean_distance fit_transform indices_a indices_b docs s)
         = Ok (VNum m) ∧ 0 ≤ m ≤ 1.
Proof.
  intros Hc. rewrite mean_distance_unfold. unfold _pairwise_distances.
  destruct (for_pairs_in_range fit_transform docs (pairs indices_a indices_b)
              [] s Hc) as (l & Hl & Hrange); [done|].
  destruct (for_pairs fit_transform docs [] (pairs indices_a indices_b) s)
    as [r s']. simpl in Hl. subst r. simpl.
  exact (arith_mean_in_range l Hrange).
Qed.

Lemma mean_distance_in_unit_interval_witness :
  fst (_mean_distance stub_fit_transform ["1"; "3"] ["2"] docs_pets new_calc)
  = Ok VNone
  ∨ ∃ m, fst (_mean_distance stub_fit_transform ["1"; "3"] ["2"] docs_pets
                new_calc) = Ok (VNum m) ∧ 0 ≤ m ≤ 1.
Proof.
  apply (mean_distance_in_unit_interval stub_fit_transform ["1"; "3"] ["2"]
           docs_pets new_calc).
  intros a b v. cbn [new_calc calculated_distances].
  by rewrite cache_lookup_empty.
Defined.

(** An empty group has no contribution: if either index list is empty,
    [contribution] returns the undefined result at once and leaves the
    calculator untouched. *)
Theorem contribution_empty_group
    (fit_transform : string → string → option (list Qc * list Qc))
    (indices_a indices_b : list string) (docs : gmap string doc_entry)
    (s : calc) :
  indices_a = [] ∨ indices_b = [] →
  contribution fit_transform indices_a indices_b docs s = (Ok VNone, s).
Proof.
  unfold contribution. intros [-> | ->]; [done|].
  by rewrite orb_true_r.
Qed.

Lemma contribution_empty_group_witness :
  contribution stub_fit_transform ["1"; "3"] [] docs_pets new_calc
  = (Ok VNone, new_calc).
Proof.
  apply (contribution_empty_group stub_fit_transform ["1"; "3"] []
           docs_pets new_calc).
  by right.
Defined.

Lemma contribution_unfold_tail
    (fit_transform : string → string → option (list Qc * list Qc))
    (indices_a indices_b : list string) (docs : gmap string doc_entry) :
  contribution fit_transform indices_a indices_b docs
  = if Nat.eqb (length indices_a) 0 || Nat.eqb (length indices_b) 0
    then ret VNone
    else
      bind (if Nat.eqb (length indices_a) 1 || Nat.eqb (length indices_b) 1
            then ret (VNum 1, VNum 1)
            else
              overline_a <- _mean_distance fit_transform indices_a indices_a
                              docs ;;
              overline_b <- _mean_distance fit_transform indices_b indices_b
                              docs ;;
              ret (overline_a, overline_b))
           (contribution_tail fit_transform indices_a indices_b docs).
Proof. reflexivity. Qed.

Lemma contribution_tail_units
    (fit_transform : string → string → option (list Qc * list Qc))
    (indices_a indices_b : list string) (docs : gmap string doc_entry)
    (s : calc) :
  contribution_tail fit_transform indices_a indices_b docs (VNum 1, VNum 1) s
  = match _mean_distance fit_transform indices_a indices_b docs s with
    | (Ok VNone, s') => (Raise TypeError, s')
    | (Ok (VNum m), s') =>
        if Qc_ltb m 0 || Qc_ltb 1 m then (Ok VNone, s') else (Ok (VNum m), s')
    | (Raise e, s') => (Raise e, s')
    end.
Proof.
  unfold contribution_tail. cbn [fst snd].
  unfold bind at 1.
  replace (lift (or_else (Py.le (VNum 1) (VNum 0))
             (or_else (Py.gt (VNum 1) (VNum 1))
                (or_else (Py.le (VNum 1) (VNum 0)) (Py.gt (VNum 1) (VNum 1))))) s)
    with (Ok false, s) by reflexivity.
  unfold bind at 1.
  destruct (_mean_distance fit_transform indices_a indices_b docs s)
    as [[[|m]|e] s']; [reflexivity| |reflexivity].
  unfold bind, lift, Py.lt, Py.gt, Py.lt, or_else.
  destruct (Qc_ltb m 0); cbn [orb]; [reflexivity|].
  destruct (Qc_ltb 1 m); [reflexivity|].
  unfold Py.truediv, Py.mul. rewrite Qc_one_neq_zero.
  by rewrite Qc_unit_scale.
Qed.

(** As soon as one of the two groups is a singleton, both adjustment
    parameters are 1 and no intra-group distance is computed, also for the
    group that has several members: the contribution is the inter-group
    mean when that is a number within [0, 1], undefined when it is a
    number outside, and a [TypeError] when it is unavailable. *)
Theorem contribution_singleton_group
    (fit_transform : string → string → option (list Qc * list Qc))
    (indices_a indices_b : list string) (docs : gmap string doc_entry)
    (s : calc) :
  indices_a ≠ [] → indices_b ≠ [] →
  length indices_a = 1%nat ∨ length indices_b = 1%nat →
  contribution fit_transform indices_a indices_b docs s
  = match _mean_distance fit_transform indices_a indices_b docs s with
    | (Ok VNone, s') => (Raise TypeError, s')
    | (Ok (VNum m), s') =>
        if Qc_ltb m 0 || Qc_ltb 1 m then (Ok VNone, s') else (Ok (VNum m), s')
    | (Raise e, s') => (Raise e, s')
    end.
Proof.
  intros Ha Hb Hone. rewrite contribution_unfold_tail.
  destruct indices_a as [|a0 la]; [done|].
  destruct indices_b as [|b0 lb]; [done|].
  cbn [length Nat.eqb orb].
  assert ((length la =? 0)%nat || (length lb =? 0)%nat = true) as ->.
  { destruct Hone as [H|H]; simpl in H; injection H as ->; [done|].
    by rewrite orb_true_r. }
  unfold bind at 1. cbn [ret].
  apply contribution_tail_units.
Qed.

Lemma contribution_singleton_group_witness :
  contribution stub_fit_transform ["1"; "3"] ["2"] docs_pets new_calc
  = match _mean_distance stub_fit_transform ["1"; "3"] ["2"] docs_pets
            new_calc with
    | (Ok VNone, s') => (Raise TypeError, s')
    | (Ok (VNum m), s') =>
        if Qc_ltb m 0 || Qc_ltb 1 m then (Ok VNone, s') else (Ok (VNum m), s')
    | (Raise e, s') => (Raise e, s')
    end.
Proof.
  apply (contribution_singleton_group stub_fit_transform ["1"; "3"] ["2"]
           docs_pets new_calc).
  - discriminate.
  - discriminate.
  - by right.
Defined.

(** The contribution formula: for groups of two or more whose intra-group
    means [qa] and [qb] are numbers in (0, 1] and whose inter-group mean
    [m] is a number within [0, 1], [contribution] returns
    [qb / qa * m]; the three means are computed in this order, each from
    the calculator the previous one left. *)
Theorem contribution_formula
    (fit_transform : string → string → option (list Qc * list Qc))
    (indices_a indices_b : list string) (docs : gmap string doc_entry)
    (s s1 s2 s3 : calc) (qa qb m : Qc) :
  (2 ≤ length indices_a)%nat → (2 ≤ length indices_b)%nat →
  _mean_distance fit_transform indices_a indices_a docs s = (Ok (VNum qa), s1) →
  _mean_distance fit_transform indices_b indices_b docs s1 = (Ok (VNum qb), s2) →
  _mean_distance fit_transform indices_a indices_b docs s2 = (Ok (VNum m), s3) →
  0 < qa ≤ 1 → 0 < qb ≤ 1 → 0 ≤ m ≤ 1 →
  contribution fit_transform indices_a indices_b docs s
  = (Ok (VNum (qb / qa * m)), s3).
Proof.
  intros Ha Hb Hma Hmb Hmab [Hqa0 Hqa1] [Hqb0 Hqb1] [Hm0 Hm1].
  unfold contribution.
  destruct indices_a as [|a0 [|a1 la]]; simpl in Ha; try lia.
  destruct indices_b as [|b0 [|b1 lb]]; simpl in Hb; try lia.
  cbn [length Nat.eqb orb].
  unfold bind at 1. unfold bind at 1. rewrite Hma.
  unfold bind at 1. rewrite Hmb. cbn [ret fst snd].
  unfold bind at 1. unfold lift at 1. rewrite adjustment_check_num.
  assert (Qc_leb qa 0 = false) as ->.
  { destruct (Qc_leb qa 0) eqn:E; [|done].
    apply Qc_leb_iff in E. by apply Qcle_not_lt in E. }
  assert (Qc_ltb 1 qa = false) as ->.
  { destruct (Qc_ltb 1 qa) eqn:E; [|done].
    apply Qc_ltb_true in E. by apply Qcle_not_lt in Hqa1. }
  assert (Qc_leb qb 0 = false) as ->.
  { destruct (Qc_leb qb 0) eqn:E; [|done].
    apply Qc_leb_iff in E. by apply Qcle_not_lt in E. }
  assert (Qc_ltb 1 qb = false) as ->.
  { destruct (Qc_ltb 1 qb) eqn:E; [|done].
    apply Qc_ltb_true in E. by apply Qcle_not_lt in Hqb1. }
  cbn [orb]. unfold bind at 1. rewrite Hmab.
  unfold bind, lift, Py.lt, Py.gt, Py.lt, or_else.
  assert (Qc_ltb m 0 = false) as ->.
  { destruct (Qc_ltb m 0) eqn:E; [|done].
    apply Qc_ltb_true in E. by apply Qcle_not_lt in Hm0. }
  assert (Qc_ltb 1 m = false) as ->.
  { destruct (Qc_ltb 1 m) eqn:E; [|done].
    apply Qc_ltb_true in E. by apply Qcle_not_lt in Hm1. }
  unfold Py.truediv, Py.mul. by rewrite Qc_eq_bool_pos.
Qed.

Lemma contribution_formula_witness :
  contribution stub_fit_transform ["1"; "3"] ["2"; "3"] docs_zoo new_calc
  = (Ok (VNum (Q2Qc (1 # 5) / Q2Qc (2 # 5) * Q2Qc (8 # 15))),
     snd (contribution stub_fit_transform ["1"; "3"] ["2"; "3"] docs_zoo
            new_calc)).
Proof.
  apply (contribution_formula stub_fit_transform ["1"; "3"] ["2"; "3"]
           docs_zoo new_calc
           (snd (_mean_distance stub_fit_transform ["1"; "3"] ["1"; "3"]
                   docs_zoo new_calc))
           (snd (_mean_distance stub_fit_transform ["2"; "3"] ["2"; "3"]
                   docs_zoo
                   (snd (_mean_distance stub_fit_transform ["1"; "3"]
                           ["1"; "3"] docs_zoo new_calc))))).
  - simpl. lia.
  - simpl. lia.
  - apply injective_projections; cbn [fst snd]; [|reflexivity].
    vm_compute; do 2 f_equal; try (apply Qc_is_canon; reflexivity).
  - apply injective_projections; cbn [fst snd]; [|reflexivity].
    vm_compute; do 2 f_equal; try (apply Qc_is_canon; reflexivity).
  - apply injective_projections; cbn [fst snd]; [|vm_compute; reflexivity].
    vm_compute; do 2 f_equal; try (apply Qc_is_canon; reflexivity).
  - done.
  - done.
  - done.
Defined.

Lemma sum_from_shape (l : list value) (q : Qc) :
  (∃ t, Py.sum_from (VNum q) l = Ok (VNum t))
  ∨ Py.sum_from (VNum q) l = Raise TypeError.
Proof.
  revert q. induction l as [|v l IH]; intros q; cbn [Py.sum_from].
  { left. by eexists. }
  destruct v as [|x]; cbn [Py.add]; [by right|]. apply IH.
Qed.

Lemma arith_mean_shape (l : list value) :
  arith_mean l = Ok VNone ∨ (∃ m, arith_mean l = Ok (VNum m))
  ∨ arith_mean l = Raise TypeError.
Proof.
  destruct l as [|v l]; [by left|]. right.
  unfold arith_mean, Py.sum. cbn [length Nat.eqb].
  destruct (sum_from_shape (v :: l) 0) as [[t ->]| ->]; [|by right].
  left. unfold Py.len, Py.truediv. cbn [length].
  rewrite Qc_eq_bool_pos by apply len_pos. by eexists.
Qed.

Lemma mean_distance_shape
    (fit_transform : string → string → option (list Qc * list Qc))
    (indices_a indices_b : list string) (docs : gmap string doc_entry)
    (s : calc) :
  match fst (_mean_distance fit_transform indices_a indices_b docs s) with
  | Ok _ => True
  | Raise e => e = TypeError
  end.
Proof.
  rewrite mean_distance_unfold. unfold _pairwise_distances.
  destruct (for_pairs_ok fit_transform docs (pairs indices_a indices_b) [] s)
    as [l Hl].
  destruct (for_pairs fit_transform docs [] (pairs indices_a indices_b) s)
    as [r s']. simpl in Hl. subst r. simpl.
  by destruct (arith_mean_shape l) as [-> |[[m ->]| ->]].
Qed.

Lemma contribution_tail_shape
    (fit_transform : string → string → option (list Qc * list Qc))
    (indices_a indices_b : list string) (docs : gmap string doc_entry)
    (overlines : value * value) (s : calc) :
  well_shaped
    (fst (contribution_tail fit_transform indices_a indices_b docs overlines s)).
Proof.
  destruct overlines as [[|qa] ob]; unfold contribution_tail; cbn [fst snd];
    [reflexivity|].
  unfold bind at 1. unfold lift at 1.
  unfold Py.le at 1, Py.gt at 1, Py.lt at 1, or_else at 1.
  destruct (Qc_leb qa 0) eqn:Ea0; [done|].
  unfold or_else at 1. destruct (Qc_ltb 1 qa) eqn:Ea1; [done|].
  destruct ob as [|qb]; [reflexivity|].
  unfold Py.le at 1, Py.gt at 1, Py.lt at 1, or_else.
  destruct (Qc_leb qb 0) eqn:Eb0; [done|].
  destruct (Qc_ltb 1 qb) eqn:Eb1; [done|].
  unfold bind at 1.
  pose proof (mean_distance_shape fit_transform indices_a indices_b docs s)
    as Hmean.
  destruct (_mean_distance fit_transform indices_a indices_b docs s)
    as [[[|m]|e] s']; simpl in Hmean; [reflexivity| |exact Hmean].
  unfold bind, lift, Py.lt, Py.gt, Py.lt.
  destruct (Qc_ltb m 0) eqn:Em0; [done|].
  destruct (Qc_ltb 1 m) eqn:Em1; [done|].
  assert (Hqa : 0 < qa).
  { apply Qcnot_le_lt. intros Hle. apply Qc_leb_iff in Hle. congruence. }
  assert (Hqb : 0 < qb).
  { apply Qcnot_le_lt. intros Hle. apply Qc_leb_iff in Hle. congruence. }
  unfold Py.truediv, Py.mul. rewrite Qc_eq_bool_pos by done.
  cbn [fst well_shaped].
  apply Qcmult_nonneg_nonneg; [|by apply Qc_ltb_false].
  unfold Qcdiv. apply Qcmult_nonneg_nonneg; apply Qclt_le_weak; [done|].
  by apply Qcinv_pos.
Qed.

(** On every input and from every calculator, [contribution] ends in one
    of three ways: with the undefined result, with a number that is not
    negative, or with a [TypeError]; in particular it never divides by
    zero. *)
Theorem contribution_well_shaped
    (fit_transform : string → string → option (list Qc * list Qc))
    (indices_a indices_b : list string) (docs : gmap string doc_entry)
    (s : calc) :
  well_shaped (fst (contribution fit_transform indices_a indices_b docs s))
  ∧ fst (contribution fit_transform indices_a indices_b docs s)
    ≠ Raise ZeroDivisionError.
Proof.
  assert (Hshape : well_shaped
            (fst (contribution fit_transform indices_a indices_b docs s))).
  { rewrite contribution_unfold_tail.
    destruct ((length indices_a =? 0)%nat || (length indices_b =? 0)%nat);
      [done|].
    unfold bind at 1.
    destruct ((length indices_a =? 1)%nat || (length indices_b =? 1)%nat).
    { apply contribution_tail_shape. }
    unfold bind at 1.
    pose proof (mean_distance_shape fit_transform indices_a indices_a docs s)
      as Ha.
    destruct (_mean_distance fit_transform indices_a indices_a docs s)
      as [[oa|e] s1]; simpl in Ha; [|exact Ha].
    unfold bind at 1.
    pose proof (mean_distance_shape fit_transform indices_b indices_b docs s1)
      as Hb.
    destruct (_mean_distance fit_transform indices_b indices_b docs s1)
      as [[ob|e] s2]; simpl in Hb; [|exact Hb].
    apply contribution_tail_shape. }
  split; [exact Hshape|].
  intros Hz. rewrite Hz in Hshape. discriminate.
Qed.

(** ** Further properties: reading the citation rows *)

Section RunFacts.

Variable py_int : string → option Z.

Lemma read_citations_ok_rows (rows : list (list string))
    (indices_cited indices_citing : list string) :
  Forall (row_ok py_int) rows →
  read_citations py_int rows indices_cited indices_citing
  = RunOk (indices_cited ++ omap (cited_entry py_int) rows,
           indices_citing ++ omap (citing_entry py_int) rows).
Proof.
  intros Hrows. revert indices_cited indices_citing.
  induction Hrows as [|row rows (row0 & row1 & rest & n0 & n1 & -> & H0 & H1)
                        _ IH]; intros indices_cited indices_citing.
  { by rewrite !app_nil_r. }
  cbn [read_citations getitem lookup list_lookup omap list_omap
       cited_entry citing_entry].
  unfold int_of. rewrite H0, H1.
  destruct (n0 =? doc_id)%Z.
  - rewrite IH. by rewrite <- app_assoc.
  - destruct (n1 =? doc_id)%Z; rewrite IH; [|done].
    by rewrite <- app_assoc.
Qed.

Lemma selected_length (rows : list (list string)) :
  (length (omap (cited_entry py_int) rows)
   + length (omap (citing_entry py_int) rows) ≤ length rows)%nat.
Proof.
  induction rows as [|row rows IH]; [done|].
  cbn [omap list_omap length].
  assert (cited_entry py_int row = None ∨ citing_entry py_int row = None)
    as [-> | ->].
  { unfold cited_entry, citing_entry.
    destruct row as [|row0 [|row1 rest]]; [by left|by left|].
    destruct (py_int row0) as [n0|]; [|by left].
    destruct (n0 =? doc_id)%Z; [right|by left].
    by destruct (py_int row1). }
  - destruct (citing_entry py_int row); simpl; lia.
  - destruct (cited_entry py_int row); simpl; lia.
Qed.

Lemma read_citations_citing_inv (rows : list (list string))
    (indices_cited indices_citing cited citing : list string) :
  Forall (λ x, ∃ n, py_int x = Some n ∧ n ≠ doc_id) indices_citing →
  read_citations py_int rows indices_cited indices_citing
    = RunOk (cited, citing) →
  Forall (λ x, ∃ n, py_int x = Some n ∧ n ≠ doc_id) citing.
Proof.
  revert indices_cited indices_citing.
  induction rows as [|row rows IH]; intros indices_cited indices_citing Hinv;
    cbn [read_citations].
  { by intros [= <- <-]. }
  unfold getitem, int_of.
  destruct (row !! 0%nat) as [row0|]; [|done].
  destruct (py_int row0) as [n0|] eqn:H0; [|done].
  destruct (n0 =? doc_id)%Z eqn:E0.
  - destruct (row !! 1%nat) as [row1|]; [|done]. by apply IH.
  - destruct (row !! 1%nat) as [row1|]; [|done].
    destruct (py_int row1) as [n1|]; [|done].
    destruct (n1 =? doc_id)%Z; [|by apply IH].
    apply IH. apply Forall_app. split; [done|].
    apply Forall_singleton. exists n0. split; [done|].
    by apply Z.eqb_neq.
Qed.

Lemma read_citations_short_row (pre post : list (list string))
    (row : list string) (indices_cited indices_citing : list string) :
  Forall (row_ok py_int) pre →
  (length row < 2)%nat →
  Forall (λ field, is_Some (py_int field)) row →
  read_citations py_int (pre ++ row :: post) indices_cited indices_citing
  = RunRaise IndexError.
Proof.
  intros Hpre Hlen Hfields. revert indices_cited indices_citing.
  induction Hpre as [|r pre (row0 & row1 & rest & n0 & n1 & -> & H0 & H1)
                       _ IH]; intros indices_cited indices_citing.
  - cbn [app read_citations]. unfold getitem, int_of.
    destruct row as [|row0 [|row1 rest]]; [done| |simpl in Hlen; lia].
    cbn [lookup list_lookup].
    apply Forall_singleton in Hfields as [n0 ->].
    by destruct (n0 =? doc_id)%Z.
  - cbn [app read_citations getitem lookup list_lookup].
    unfold int_of. rewrite H0, H1.
    destruct (n0 =? doc_id)%Z; [apply IH|].
    destruct (n1 =? doc_id)%Z; apply IH.
Qed.

End RunFacts.

(** On rows that all have two fields accepted by [int], the loop selects:
    [indices_cited] collects, in order, the second field of the rows whose
    first field is the target, and [indices_citing] the first field of the
    other rows whose second field is the target; every row feeds at most
    one of the two lists, a self-citation of the target only
    [indices_cited]. *)
Theorem read_citations_selects
    (py_int : string → option Z) (rows : list (list string)) :
  Forall (row_ok py_int) rows →
  read_citations py_int rows [] []
  = RunOk (omap (cited_entry py_int) rows, omap (citing_entry py_int) rows)
  ∧ (length (omap (cited_entry py_int) rows)
     + length (omap (citing_entry py_int) rows) ≤ length rows)%nat.
Proof.
  intros Hrows. split; [|apply selected_length].
  by rewrite read_citations_ok_rows.
Qed.

Lemma rows_27_ok : Forall (row_ok decimal_int) rows_27.
Proof.
  unfold rows_27.
  repeat (constructor; [do 5 eexists; repeat split; vm_compute; reflexivity|]).
  constructor.
Qed.

Lemma read_citations_selects_witness :
  read_citations decimal_int rows_27 [] []
  = RunOk (omap (cited_entry decimal_int) rows_27,
           omap (citing_entry decimal_int) rows_27)
  ∧ (length (omap (cited_entry decimal_int) rows_27)
     + length (omap (citing_entry decimal_int) rows_27) ≤ length rows_27)%nat.
Proof. apply (read_citations_selects decimal_int rows_27 rows_27_ok). Defined.

(** The target document is never among its own citing documents: every
    index that a successful run of the loop puts into [indices_citing] is
    accepted by [int] and differs from the target. *)
Theorem target_never_citing
    (py_int : string → option Z) (rows : list (list string))
    (cited citing : list string) (x : string) :
  read_citations py_int rows [] [] = RunOk (cited, citing) →
  x ∈ citing →
  ∃ n, py_int x = Some n ∧ n ≠ doc_id.
Proof.
  intros Hrun Hx.
  pose proof (read_citations_citing_inv py_int rows [] [] cited citing
                (Forall_nil _) Hrun) as Hall.
  apply list_elem_of_In in Hx.
  by apply (proj1 (Forall_forall _ _) Hall).
Qed.

Lemma target_never_citing_witness :
  ∃ n, decimal_int "3" = Some n ∧ n ≠ doc_id.
Proof.
  apply (target_never_citing decimal_int rows_27 ["1"; "27"] ["3"; "2"] "3").
  - vm_compute. reflexivity.
  - apply list_elem_of_here.
Defined.

(** A row with fewer than two fields, such as the empty row that the csv
    reader yields for a blank line, stops the loop with [IndexError] (when
    the rows before it are well formed and its fields are numerals), so
    the script fails before any contribution is computed. *)
Theorem short_row_raises_index_error
    (py_int : string → option Z)
    (fit_transform : string → string → option (list Qc * list Qc))
    (pre post : list (list string)) (row : list string)
    (documents : gmap string doc_entry) :
  Forall (row_ok py_int) pre →
  (length row < 2)%nat →
  Forall (λ field, is_Some (py_int field)) row →
  read_citations py_int (pre ++ row :: post) [] [] = RunRaise IndexError
  ∧ main py_int fit_transform (pre ++ row :: post) documents
    = RunRaise IndexError.
Proof.
  intros Hpre Hlen Hfields.
  assert (H : read_citations py_int (pre ++ row :: post) [] []
              = RunRaise IndexError) by by apply read_citations_short_row.
  split; [exact H|]. unfold main. by rewrite H.
Qed.

Lemma short_row_raises_index_error_witness :
  read_citations decimal_int (rows_27 ++ [] :: [["27"; "9"]]) [] []
  = RunRaise IndexError
  ∧ main decimal_int stub_fit_transform (rows_27 ++ [] :: [["27"; "9"]])
      docs_pets
    = RunRaise IndexError.
Proof.
  apply (short_row_raises_index_error decimal_int stub_fit_transform rows_27
           [["27"; "9"]] [] docs_pets).
  - apply rows_27_ok.
  - simpl. lia.
  - constructor.
Defined.

(** A target without citations in one direction gets no score: when no
    well-formed row makes the target cite anything, or none makes anything
    cite the target, the script's contribution is the undefined result,
    obtained from the fresh calculator without any engine invocation. *)
Theorem main_without_citations
    (py_int : string → option Z)
    (fit_transform : string → string → option (list Qc * list Qc))
    (rows : list (list string)) (documents : gmap string doc_entry) :
  Forall (row_ok py_int) rows →
  omap (cited_entry py_int) rows = []
  ∨ omap (citing_entry py_int) rows = [] →
  main py_int fit_transform rows documents = RunOk (Ok VNone, new_calc).
Proof.
  intros Hrows Hnone. unfold main.
  rewrite read_citations_ok_rows by done. cbn [app].
  f_equal. unfold contribution.
  destruct Hnone as [-> | ->]; [done|].
  cbn [length Nat.eqb]. by rewrite orb_true_r.
Qed.

Lemma main_without_citations_witness :
  main decimal_int stub_fit_transform [["27"; "1"]; ["5"; "6"]] docs_pets
  = RunOk (Ok VNone, new_calc).
Proof.
  apply (main_without_citations decimal_int stub_fit_transform
           [["27"; "1"]; ["5"; "6"]] docs_pets).
  - repeat (constructor;
            [do 5 eexists; repeat split; vm_compute; reflexivity|]).
    constructor.
  - right. vm_compute. reflexivity.
Defined.
